(** * generate_postman.py: route extraction and collection assembly

    A shallow embedding of [src/generate_postman.py].  The script scans
    TypeScript route files line by line, keeps a buffer of the comment
    lines seen since the last route, recognises [router.<method>('<path>']
    with a regular expression, and groups the routes found in every file
    into a folder of a Postman collection.

    Python's [str] is modelled by [string]; a character is a code point
    in 0..255.  Whitespace ([str.strip], [\s] of a str pattern) is the set
    for which [str.isspace] holds on that range.  Case conversion is given
    for ASCII letters only; statements that convert the case of arbitrary
    text carry an [is_ascii] hypothesis. *)

From Stdlib Require Import String Ascii List Bool Arith Lia.
Import ListNotations.
Open Scope list_scope.
Open Scope string_scope.
Open Scope nat_scope.

(** ** Python string primitives *)

Module Py.

(** [str.isspace] on one character: TAB, LF, VT, FF, CR, the four
    separators FS GS RS US, SPACE, NEL (0x85) and NBSP (0xA0). *)
Definition isspace (c : ascii) : bool :=
  let n := nat_of_ascii c in
  ((9 <=? n) && (n <=? 13)) || ((28 <=? n) && (n <=? 32))
  || (n =? 133) || (n =? 160).

Definition is_upper (c : ascii) : bool :=
  let n := nat_of_ascii c in (65 <=? n) && (n <=? 90).

Definition is_lower (c : ascii) : bool :=
  let n := nat_of_ascii c in (97 <=? n) && (n <=? 122).

Definition upper_char (c : ascii) : ascii :=
  if is_lower c then ascii_of_nat (nat_of_ascii c - 32) else c.

Definition lower_char (c : ascii) : ascii :=
  if is_upper c then ascii_of_nat (nat_of_ascii c + 32) else c.

Fixpoint smap (f : ascii -> ascii) (s : string) : string :=
  match s with
  | EmptyString => EmptyString
  | String c s' => String (f c) (smap f s')
  end.

(** [s.upper()] and [s.lower()]. *)
Definition upper (s : string) : string := smap upper_char s.
Definition lower (s : string) : string := smap lower_char s.

(** [s.capitalize()]: first character upper-cased, the rest lower-cased. *)
Definition capitalize (s : string) : string :=
  match s with
  | EmptyString => EmptyString
  | String c s' => String (upper_char c) (lower s')
  end.

Fixpoint sforall (p : ascii -> bool) (s : string) : bool :=
  match s with
  | EmptyString => true
  | String c s' => p c && sforall p s'
  end.

Definition is_ascii (s : string) : bool :=
  sforall (fun c => nat_of_ascii c <? 128) s.

(** [s.lstrip()], [s.rstrip()], [s.strip()]. *)
Fixpoint lstrip (s : string) : string :=
  match s with
  | EmptyString => EmptyString
  | String c s' => if isspace c then lstrip s' else s
  end.

Fixpoint rstrip (s : string) : string :=
  match s with
  | EmptyString => EmptyString
  | String c s' =>
      match rstrip s' with
      | EmptyString => if isspace c then EmptyString else String c EmptyString
      | r => String c r
      end
  end.

Definition strip (s : string) : string := rstrip (lstrip s).

(** [s.startswith(p)] and [s.endswith(p)]. *)
Definition startswith (s p : string) : bool := String.prefix p s.

Fixpoint endswith (s p : string) : bool :=
  String.eqb s p ||
  match s with
  | EmptyString => false
  | String _ s' => endswith s' p
  end.

(** [sub in s]. *)
Fixpoint contains (sub s : string) : bool :=
  String.prefix sub s ||
  match s with
  | EmptyString => false
  | String _ s' => contains sub s'
  end.

(** [s.replace(old, new)] for a non-empty [old]: occurrences are taken
    from the left and do not overlap.  [skip] counts the characters of an
    occurrence that are still to be dropped. *)
Fixpoint replace_from (old new : string) (skip : nat) (s : string) : string :=
  match s with
  | EmptyString => EmptyString
  | String c s' =>
      match skip with
      | S k => replace_from old new k s'
      | O =>
          if String.prefix old s
          then new ++ replace_from old new (String.length old - 1) s'
          else String c (replace_from old new 0 s')
      end
  end.

Definition replace (s old new : string) : string := replace_from old new 0 s.

(** [s.split(sep)] for a one-character separator. *)
Fixpoint split (s : string) (sep : ascii) : list string :=
  match s with
  | EmptyString => [EmptyString]
  | String c s' =>
      if Ascii.eqb c sep then EmptyString :: split s' sep
      else match split s' sep with
           | h :: t => String c h :: t
           | [] => [String c EmptyString]
           end
  end.

(** [s[:-1]]. *)
Fixpoint drop_last (s : string) : string :=
  match s with
  | EmptyString => EmptyString
  | String c EmptyString => EmptyString
  | String c s' => String c (drop_last s')
  end.

(** [os.path.join(a, b)] on POSIX. *)
Definition path_join (a b : string) : string :=
  if startswith b "/" then b
  else if String.eqb a "" || endswith a "/" then a ++ b
  else a ++ "/" ++ b.

End Py.

(** ** Regular expressions with Python's backtracking semantics *)

Module Re.

(** The fragment of [re] syntax the script's pattern uses. *)
Inductive regex : Type :=
| Eps
| Chr (p : ascii -> bool)
| Seq (r1 r2 : regex)
| Alt (r1 r2 : regex)
| Star (p : ascii -> bool)
| Group (n : nat) (r : regex).

(** The groups closed so far, most recent first. *)
Definition captures : Type := list (nat * string).

Fixpoint lit (s : string) : regex :=
  match s with
  | EmptyString => Eps
  | String c s' => Seq (Chr (Ascii.eqb c)) (lit s')
  end.

Section Matcher.
Context {A : Type}.

(** Greedy [c*]: take one more character first, give it back when the
    continuation fails. *)
Fixpoint star (p : ascii -> bool) (s : string) (k : string -> option A)
  : option A :=
  match s with
  | String c s' =>
      if p c
      then match star p s' k with
           | Some x => Some x
           | None => k s
           end
      else k s
  | EmptyString => k s
  end.

(** The part of [s] consumed when [rest] is what remains of it. *)
Definition taken (s rest : string) : string :=
  substring 0 (String.length s - String.length rest) s.

Fixpoint run (r : regex) (s : string) (caps : captures)
  (k : string -> captures -> option A) : option A :=
  match r with
  | Eps => k s caps
  | Chr p =>
      match s with
      | String c s' => if p c then k s' caps else None
      | EmptyString => None
      end
  | Seq r1 r2 => run r1 s caps (fun s' caps' => run r2 s' caps' k)
  | Alt r1 r2 =>
      match run r1 s caps k with
      | Some x => Some x
      | None => run r2 s caps k
      end
  | Star p => star p s (fun s' => k s' caps)
  | Group n r =>
      run r s caps (fun s' caps' => k s' ((n, taken s s') :: caps'))
  end.
End Matcher.

(** [re.match]: the groups and the text after the match. *)
Definition match_here (r : regex) (s : string) : option (captures * string) :=
  run r s [] (fun rest caps => Some (caps, rest)).

(** [re.search]: the match at the leftmost position that has one. *)
Fixpoint search (r : regex) (s : string) : option (captures * string) :=
  match match_here r s with
  | Some m => Some m
  | None =>
      match s with
      | EmptyString => None
      | String _ s' => search r s'
      end
  end.

(** [m.group(n)]. *)
Fixpoint group (n : nat) (caps : captures) : option string :=
  match caps with
  | [] => None
  | (i, g) :: caps' => if i =? n then Some g else group n caps'
  end.

End Re.

(** ** The script *)

(** *** Configuration *)

Definition PROJECT_ROOT : string :=
  "/Users/justinemahinyila/Codez/wexp/wexp-backend".
Definition ROUTES_DIR : string := Py.path_join PROJECT_ROOT "src/routes".
Definition OUTPUT_FILE : string :=
  Py.path_join PROJECT_ROOT "wexp_postman_collection.json".

(** The dict literal, in insertion order. *)
Definition BASE_PATHS : list (string * string) :=
  [ ("auth.ts", "/api/auth");
    ("events.ts", "/api/events");
    ("invitations.ts", "/api/invitations");
    ("tours.ts", "/api/tours");
    ("vehicles.ts", "/api/vehicles");
    ("accommodations.ts", "/api/accommodations");
    ("test.ts", "/api/test");
    ("templates.ts", "/api/templates");
    ("budgets.ts", "/api/budgets");
    ("calendar.ts", "/api/calendar");
    ("drafts.ts", "/api/drafts");
    ("users.ts", "/api/users");
    ("ecards.ts", "/api/ecards");
    ("venues.ts", "/api/venues");
    ("decorations.ts", "/api/decorations");
    ("car-import.ts", "/api/car-import");
    ("insurance.ts", "/api/insurance");
    ("landing.ts", "/api/landing");
    ("communications.ts", "/api/communications");
    ("messagingRoutes.ts", "/api/messaging");
    ("whatsapp.routes.ts", "/api/whatsapp");
    ("webhooks.ts", "/webhooks") ].

(** *** parse_route_file *)

(** One entry of [routes]. *)
Record route : Type := mkRoute {
  name : string;
  method : string;
  path : string;
  description : string
}.

(** The two characters of the quote class. *)
Definition single_quote : ascii := "'"%char.
Definition double_quote : ascii := ascii_of_nat 34.
Definition is_quote (c : ascii) : bool :=
  Ascii.eqb c single_quote || Ascii.eqb c double_quote.

(** The pattern of [re.search]: the literal [router.]; group 1, one of
    [get|post|put|delete|patch]; any whitespace; an opening parenthesis;
    any whitespace; a quote (single or double); group 2, the longest run
    of characters that are not quotes; a quote. *)
Definition route_re : Re.regex :=
  Re.Seq (Re.lit "router.")
  (Re.Seq (Re.Group 1
             (Re.Alt (Re.lit "get")
             (Re.Alt (Re.lit "post")
             (Re.Alt (Re.lit "put")
             (Re.Alt (Re.lit "delete") (Re.lit "patch"))))))
  (Re.Seq (Re.Star Py.isspace)
  (Re.Seq (Re.Chr (Ascii.eqb "("%char))
  (Re.Seq (Re.Star Py.isspace)
  (Re.Seq (Re.Chr is_quote)
  (Re.Seq (Re.Group 2 (Re.Star (fun c => negb (is_quote c))))
          (Re.Chr is_quote))))))).

(** [re.search(..., line)] with [match.group(1)] and [match.group(2)]. *)
Definition route_match (line : string) : option (string * string) :=
  match Re.search route_re line with
  | Some (caps, _) =>
      match Re.group 1 caps, Re.group 2 caps with
      | Some g1, Some g2 => Some (g1, g2)
      | _, _ => None
      end
  | None => None
  end.

(** The test that opens the loop body. *)
Definition is_comment_line (line : string) : bool :=
  Py.startswith line "/**" || Py.startswith line "*" || Py.startswith line "//".

(** The value of [clean_comment]: four [replace] calls in a row, then
    [strip]. *)
Definition clean_comment (line : string) : string :=
  Py.strip
    (Py.replace (Py.replace (Py.replace (Py.replace line "/**" "") "*/" "")
                   "*" "") "//" "").

(** Trailing slash removal on [base_path + path]. *)
Definition full_path_of (base_path path : string) : string :=
  let full_path := base_path ++ path in
  if Py.endswith full_path "/" && (1 <? String.length full_path)
  then Py.drop_last full_path
  else full_path.

(** One round of [for comment in current_comment], on
    [(description, name)]. *)
Definition describe_step (st : string * string) (comment : string)
  : string * string :=
  let '(description, name) := st in
  if Py.contains "@desc" comment then
    let description := Py.strip (Py.replace comment "@desc" "") in
    (description, description)
  else if negb (Py.contains "@route" comment)
          && negb (Py.contains "@access" comment) then
    if String.eqb description "" then (comment, name) else (description, name)
  else (description, name).

(** The body of [if match:], up to the dict that is appended. *)
Definition build_route (base_path : string) (current_comment : list string)
  (g1 g2 : string) : route :=
  let method := Py.upper g1 in
  let path := g2 in
  let full_path := full_path_of base_path path in
  let '(description, name) :=
    fold_left describe_step current_comment ("", method ++ " " ++ path) in
  let description :=
    if String.eqb description "" then method ++ " " ++ full_path
    else description in
  mkRoute name method full_path description.

(** The loop state: [routes] and [current_comment]. *)
Definition scan_state : Type := (list route * list string)%type.

(** One iteration of [for i, line in enumerate(lines)]. *)
Definition scan_line (base_path : string) (st : scan_state) (line : string)
  : scan_state :=
  let '(routes, current_comment) := st in
  let line := Py.strip line in
  if is_comment_line line then
    let current_comment :=
      if Py.startswith line "/**" then [] else current_comment in
    let clean := clean_comment line in
    if negb (String.eqb clean "")
    then (routes, (current_comment ++ [clean])%list)
    else (routes, current_comment)
  else
    match route_match line with
    | Some (g1, g2) =>
        ((routes ++ [build_route base_path current_comment g1 g2])%list, [])
    | None =>
        if String.eqb (Py.strip line) "" then (routes, current_comment)
        else if negb (Py.startswith line "router.") then (routes, [])
        else (routes, current_comment)
    end.

Definition newline : ascii := ascii_of_nat 10.

(** [parse_route_file] from [content] on. *)
Definition parse_route_text (base_path content : string) : list route :=
  fst (fold_left (scan_line base_path) (Py.split content newline) ([], [])).

(** The file system: the text [f.read()] returns for a path that exists. *)
Definition file_system : Type := string -> option string.

(** [parse_route_file]: the lines printed and the list returned. *)
Definition parse_route_file (fs : file_system) (filename base_path : string)
  : list string * list route :=
  let filepath := Py.path_join ROUTES_DIR filename in
  match fs filepath with
  | None => (["Warning: File not found: " ++ filepath], [])
  | Some content => ([], parse_route_text base_path content)
  end.

(** *** generate_collection *)

Record header : Type := mkHeader { key : string; value : string }.

Record url : Type := mkUrl {
  raw : string;
  host : list string;
  url_path : list string
}.

Record body : Type := mkBody { mode : string; body_raw : string }.

(** The [request] dict; [req_body] is [None] when the key is absent. *)
Record request : Type := mkRequest {
  req_method : string;
  req_header : list header;
  req_url : url;
  req_description : string;
  req_body : option body
}.

Record request_item : Type := mkItem {
  item_name : string;
  item_request : request;
  response : list string
}.

Record folder : Type := mkFolder {
  folder_name : string;
  folder_item : list request_item
}.

Record info : Type := mkInfo {
  info_name : string;
  info_description : string;
  schema : string
}.

Record collection : Type := mkCollection {
  collection_info : info;
  item : list folder
}.

(** The placeholder body: an opening brace, a line of four spaces and a
    closing brace. *)
Definition placeholder_body : body :=
  mkBody "raw"
    (String "{"%char (String newline ("    " ++ String newline "}"))).

(** [route['method'] in ['POST', 'PUT', 'PATCH']]. *)
Definition has_body (method : string) : bool :=
  existsb (String.eqb method) ["POST"; "PUT"; "PATCH"].

(** The body of [for route in routes]. *)
Definition make_request_item (r : route) : request_item :=
  mkItem (name r)
    (mkRequest (method r)
       [ mkHeader "Content-Type" "application/json";
         mkHeader "Authorization" "Bearer {{token}}" ]
       (mkUrl ("{{base_url}}" ++ path r)
              ["{{base_url}}"]
              (filter (fun p => negb (String.eqb p ""))
                      (Py.split (path r) "/"%char)))
       (description r)
       (if has_body (method r) then Some placeholder_body else None))
    [].

(** The name given to a folder. *)
Definition folder_name_of (base_path : string) : string :=
  Py.capitalize (Py.replace (Py.replace base_path "/api/" "") "/" "").

(** The state of the outer loop: the lines printed so far and
    [collection['item']]. *)
Definition gen_state : Type := (list string * list folder)%type.

(** One iteration of [for filename, base_path in BASE_PATHS.items()]. *)
Definition process_entry (fs : file_system) (st : gen_state)
  (entry : string * string) : gen_state :=
  let '(out, items) := st in
  let '(filename, base_path) := entry in
  let out := (out ++ [("Processing " ++ filename ++ "...")%string])%list in
  let '(printed, routes) := parse_route_file fs filename base_path in
  let out := (out ++ printed)%list in
  match routes with
  | [] => (out, items)
  | _ :: _ =>
      (out,
       (items ++ [mkFolder (folder_name_of base_path)
                           (map make_request_item routes)])%list)
  end.

(** The loop over a mapping, from the empty collection. *)
Definition process_entries (fs : file_system) (mapping : list (string * string))
  : gen_state :=
  fold_left (process_entry fs) mapping ([], []).

(** The body of [generate_collection] up to the write, over a mapping:
    the lines the loop prints and the document handed to [json.dump]. *)
Definition assemble (mapping : list (string * string)) (fs : file_system)
  : list string * collection :=
  let '(out, items) := process_entries fs mapping in
  (out,
   mkCollection
     (mkInfo "WEXP Backend API"
        "Auto-generated Postman collection for WEXP Backend"
        "https://schema.getpostman.com/json/collection/v2.1.0/collection.json")
     items).

(** How a run ends.  [Completed printed doc]: [doc] was written to
    [OUTPUT_FILE] and [printed] are all the lines of the run.
    [Raised printed]: [open] or [json.dump] raised, the exception leaves
    [generate_collection], and [printed] are the lines printed before. *)
Inductive run_result : Type :=
| Completed (printed : list string) (written : collection)
| Raised (printed : list string).

(** The output side of the file system: [writable p] holds when
    [open(p, 'w')] and the [json.dump] into it both succeed. *)
Definition output_system : Type := string -> bool.

(** [generate_collection] over a mapping: the loop, then the write, then
    the confirmation, which is printed only after the write. *)
Definition generate_collection_from (mapping : list (string * string))
  (fs : file_system) (writable : output_system) : run_result :=
  let '(out, doc) := assemble mapping fs in
  if writable OUTPUT_FILE
  then Completed
         (out ++ [("Collection generated at " ++ OUTPUT_FILE)%string])%list doc
  else Raised out.

(** [generate_collection], which reads the global [BASE_PATHS]. *)
Definition generate_collection (fs : file_system) (writable : output_system)
  : run_result :=
  generate_collection_from BASE_PATHS fs writable.

(** What one mapping entry prints and adds, from an empty state. *)
Definition entry_output (fs : file_system) (entry : string * string)
  : gen_state :=
  process_entry fs ([], []) entry.

(** ** The pattern, read deterministically

    In [route_re] every starred class is followed by a character outside
    the class and no method name is a prefix of another, so a match at a
    position can be computed without backtracking.  [route_at] does so;
    it is proved equal to the backtracking matcher below. *)

(** [s] without its prefix [p]. *)
Fixpoint strip_prefix (p s : string) : option string :=
  match p with
  | EmptyString => Some s
  | String a p' =>
      match s with
      | EmptyString => None
      | String b s' => if Ascii.eqb a b then strip_prefix p' s' else None
      end
  end.

(** [s] after, and up to, its longest prefix of characters in [p]. *)
Fixpoint skip (p : ascii -> bool) (s : string) : string :=
  match s with
  | EmptyString => EmptyString
  | String c s' => if p c then skip p s' else s
  end.

Fixpoint span (p : ascii -> bool) (s : string) : string :=
  match s with
  | EmptyString => EmptyString
  | String c s' => if p c then String c (span p s') else EmptyString
  end.

(** The first of [ms] that is a prefix of [s], with the rest of [s]. *)
Fixpoint first_prefix (ms : list string) (s : string)
  : option (string * string) :=
  match ms with
  | [] => None
  | m :: ms' =>
      match strip_prefix m s with
      | Some rest => Some (m, rest)
      | None => first_prefix ms' s
      end
  end.

Definition methods : list string := ["get"; "post"; "put"; "delete"; "patch"].

Definition not_quote (c : ascii) : bool := negb (is_quote c).

(** A match of the pattern at the start of [s]: both groups and the text
    after the match. *)
Definition route_at (s : string) : option (string * string * string) :=
  match strip_prefix "router." s with
  | None => None
  | Some s1 =>
      match first_prefix methods s1 with
      | None => None
      | Some (g1, s2) =>
          match skip Py.isspace s2 with
          | String c3 s3 =>
              if Ascii.eqb "("%char c3 then
                match skip Py.isspace s3 with
                | String c4 s4 =>
                    if is_quote c4 then
                      match skip not_quote s4 with
                      | String _ s5 => Some (g1, span not_quote s4, s5)
                      | EmptyString => None
                      end
                    else None
                | EmptyString => None
                end
              else None
          | EmptyString => None
          end
      end
  end.

Fixpoint route_search (s : string) : option (string * string * string) :=
  match route_at s with
  | Some m => Some m
  | None =>
      match s with
      | EmptyString => None
      | String _ s' => route_search s'
      end
  end.

(** ** Vocabulary of the statements *)

(** Method and path of a record. *)
Definition route_key (r : route) : string * string := (method r, path r).

Definition METHODS : list string := ["GET"; "POST"; "PUT"; "DELETE"; "PATCH"].

(** A line from which a route is emitted. *)
Definition is_route_line (line : string) : bool :=
  let line := Py.strip line in
  negb (is_comment_line line)
  && match route_match line with Some _ => true | None => false end.

(** What one line contributes to [routes]: method and path. *)
Definition line_route (base_path line : string) : list (string * string) :=
  let line := Py.strip line in
  if is_comment_line line then []
  else match route_match line with
       | Some (g1, g2) => [(Py.upper g1, full_path_of base_path g2)]
       | None => []
       end.

(** The state of the scan after the lines [before], from the start of a
    file. *)
Definition scan_after (base_path : string) (before : list string)
  : scan_state :=
  fold_left (scan_line base_path) before ([], []).

(** The text of a file given by its lines. *)
Fixpoint text_of_lines (lines : list string) : string :=
  match lines with
  | [] => EmptyString
  | [l] => l
  | l :: ls => l ++ String newline (text_of_lines ls)
  end.

(** A buffered line that carries neither an [@route] nor an [@access]
    tag. *)
Definition is_plain (comment : string) : bool :=
  negb (Py.contains "@route" comment) && negb (Py.contains "@access" comment).

(** The text of a route call: [router.], the method, blanks, an opening
    parenthesis, blanks, and the sub-path between two quotes. *)
Definition declaration (m w1 w2 : string) (q1 : ascii) (sub : string)
  (q2 : ascii) : string :=
  "router." ++ m ++ w1
  ++ String "("%char (w2 ++ String q1 (sub ++ String q2 "")).

Definition well_formed (m w1 w2 : string) (q1 : ascii) (sub : string)
  (q2 : ascii) : bool :=
  existsb (String.eqb m) methods
  && Py.sforall Py.isspace w1 && Py.sforall Py.isspace w2
  && is_quote q1 && Py.sforall not_quote sub && is_quote q2.

(** [s] opens with a well-formed route declaration of method [m] and
    sub-path [sub]. *)
Definition declares_at (s m sub : string) : Prop :=
  exists (w1 w2 : string) (q1 q2 : ascii) (rest : string),
    well_formed m w1 w2 q1 sub q2 = true
    /\ s = declaration m w1 w2 q1 sub q2 ++ rest.

(** The first well-formed route declaration in [line] is one of method
    [m] and sub-path [sub]: one starts after [pre], and none starts at a
    position inside [pre]. *)
Definition first_declaration (line m sub : string) : Prop :=
  exists pre suf : string,
    line = pre ++ suf /\ declares_at suf m sub
    /\ forall (pre1 pre2 m' sub' : string),
         pre = pre1 ++ pre2 -> pre2 <> "" ->
         ~ declares_at (pre2 ++ suf) m' sub'.

(** No well-formed route declaration starts anywhere in [line]. *)
Definition no_declaration (line : string) : Prop :=
  forall (pre suf m sub : string),
    line = pre ++ suf -> ~ declares_at suf m sub.

(** Nothing is left for [lstrip] to remove. *)
Definition lstrip_done (s : string) : bool :=
  match s with
  | EmptyString => true
  | String c _ => negb (Py.isspace c)
  end.

(** No uppercase ASCII letter. *)
Definition no_upper (s : string) : bool :=
  Py.sforall (fun c => negb (Py.is_upper c)) s.

(** No occurrence of the character [x]. *)
Definition free_of (x : ascii) (s : string) : bool :=
  Py.sforall (fun c => negb (Ascii.eqb x c)) s.

(** Text with neither a star nor a slash in it. *)
Definition plain_text (s : string) : bool :=
  free_of "*"%char s && free_of "/"%char s.

(** All of a string but its first character. *)
Definition tail (s : string) : string :=
  match s with
  | EmptyString => EmptyString
  | String _ s' => s'
  end.

(** The request item of a POST route. *)
Definition post_item : request_item :=
  make_request_item (mkRoute "POST /a" "POST" "/api/x/a" "POST /api/x/a").

(** ** The specification's wording, for comparison *)

Module Spec.

(** A literal matched in either case. *)
Fixpoint lit_nocase (s : string) : Re.regex :=
  match s with
  | EmptyString => Re.Eps
  | String c s' =>
      Re.Seq (Re.Chr (fun x => Ascii.eqb (Py.lower_char x) (Py.lower_char c)))
             (lit_nocase s')
  end.

(** The route-call pattern with the method name
    case-insensitive in the source spelling. *)
Definition route_re_nocase : Re.regex :=
  Re.Seq (Re.lit "router.")
  (Re.Seq (Re.Group 1
             (Re.Alt (lit_nocase "get")
             (Re.Alt (lit_nocase "post")
             (Re.Alt (lit_nocase "put")
             (Re.Alt (lit_nocase "delete") (lit_nocase "patch"))))))
  (Re.Seq (Re.Star Py.isspace)
  (Re.Seq (Re.Chr (Ascii.eqb "("%char))
  (Re.Seq (Re.Star Py.isspace)
  (Re.Seq (Re.Chr is_quote)
  (Re.Seq (Re.Group 2 (Re.Star (fun c => negb (is_quote c))))
          (Re.Chr is_quote))))))).

(** The method a line names, normalized to uppercase. *)
Definition named_method (line : string) : option string :=
  match Re.search route_re_nocase line with
  | Some (caps, _) => option_map Py.upper (Re.group 1 caps)
  | None => None
  end.

Definition removeprefix (s p : string) : string :=
  match strip_prefix p s with
  | Some r => r
  | None => s
  end.

Fixpoint removesuffix (s p : string) : string :=
  if String.eqb s p then EmptyString
  else match s with
       | EmptyString => EmptyString
       | String c s' => String c (removesuffix s' p)
       end.

(** Only the first character is capitalized; the rest retains its
    original case. *)
Definition capitalize_first (s : string) : string :=
  match s with
  | EmptyString => EmptyString
  | String c s' => String (Py.upper_char c) s'
  end.

(** Strip the [/api/] prefix and the remaining slashes, capitalize the
    first letter, leave the rest as it is. *)
Definition folder_name (base_path : string) : string :=
  capitalize_first (Py.replace (removeprefix base_path "/api/") "/" "").

(** The text following the first occurrence of [marker] in [s]. *)
Fixpoint text_after (marker s : string) : string :=
  match strip_prefix marker s with
  | Some r => r
  | None =>
      match s with
      | EmptyString => EmptyString
      | String _ s' => text_after marker s'
      end
  end.

(** Description and name as the specification derives them from the
    buffer. *)
Definition describe (buffer : list string) (method sub_path full_path : string)
  : string * string :=
  match find (Py.contains "@desc") buffer with
  | Some c =>
      let d := Py.strip (text_after "@desc" c) in (d, d)
  | None =>
      match find is_plain buffer with
      | Some c => (c, method ++ " " ++ sub_path)
      | None => (method ++ " " ++ full_path, method ++ " " ++ sub_path)
      end
  end.

(** Only the markers go: the block-close marker that ends the line, then
    the block-open marker, a leading star or a leading double slash. *)
Definition clean_comment (line : string) : string :=
  let s := removesuffix line "*/" in
  let s :=
    if Py.startswith s "/**" then removeprefix s "/**"
    else if Py.startswith s "*" then removeprefix s "*"
    else removeprefix s "//" in
  Py.strip s.

(** The number of well-formed route declarations in a text: the
    positions at which the pattern matches. *)
Fixpoint declarations_in (text : string) : nat :=
  (match Re.match_here route_re text with Some _ => 1 | None => 0 end)
  + match text with
    | EmptyString => 0
    | String _ text' => declarations_in text'
    end.

End Spec.

(** ** Vocabulary of the further properties *)

(** A line the scan passes over without touching its state: a blank
    line, or a line that starts with [router.] on which the pattern does
    not match. *)
Definition is_transparent (line : string) : bool :=
  let line := Py.strip line in
  negb (is_comment_line line)
  && match route_match line with Some _ => false | None => true end
  && (String.eqb line "" || Py.startswith line "router.").

(** A code line that is none of comment, route, blank, [router.] line. *)
Definition is_opaque (line : string) : bool :=
  let line := Py.strip line in
  negb (is_comment_line line)
  && match route_match line with Some _ => false | None => true end
  && negb (String.eqb line "") && negb (Py.startswith line "router.").

(** The record of a route that finds the buffer empty. *)
Definition default_route (base_path g1 g2 : string) : route :=
  mkRoute (Py.upper g1 ++ " " ++ g2) (Py.upper g1)
    (full_path_of base_path g2)
    (Py.upper g1 ++ " " ++ full_path_of base_path g2).

(** A path written from its segments, a slash before each. *)
Fixpoint join_segments (segments : list string) : string :=
  match segments with
  | [] => EmptyString
  | p :: ps => "/" ++ p ++ join_segments ps
  end.

(** A URL path segment as the document should have it. *)
Definition is_segment (p : string) : bool :=
  negb (String.eqb p "") && free_of "/"%char p.

(** The file of a mapping entry is missing. *)
Definition is_missing (fs : file_system) (entry : string * string) : bool :=
  match fs (Py.path_join ROUTES_DIR (fst entry)) with
  | Some _ => false
  | None => true
  end.

(** The folder a mapping entry gives, if any. *)
Definition entry_folder (fs : file_system) (entry : string * string)
  : list folder :=
  match snd (parse_route_file fs (fst entry) (snd entry)) with
  | [] => []
  | routes =>
      [mkFolder (folder_name_of (snd entry)) (map make_request_item routes)]
  end.

(** The lines a mapping entry prints. *)
Definition entry_lines (fs : file_system) (entry : string * string)
  : list string :=
  ("Processing " ++ fst entry ++ "...")
  :: (if is_missing fs entry
      then ["Warning: File not found: " ++ Py.path_join ROUTES_DIR (fst entry)]
      else []).

(** Method and raw URL of a request item. *)
Definition item_key (it : request_item) : string * string :=
  (req_method (item_request it), raw (req_url (item_request it))).

(** Method and raw URL of the requests a mapping entry gives, read off
    the lines of its file. *)
Definition entry_requests (fs : file_system) (entry : string * string)
  : list (string * string) :=
  match fs (Py.path_join ROUTES_DIR (fst entry)) with
  | Some content =>
      map (fun k => (fst k, "{{base_url}}" ++ snd k))
        (flat_map (line_route (snd entry)) (Py.split content newline))
  | None => []
  end.

(** * Properties *)

(** ** The primitives on examples *)

Example strip_ex :
  Py.strip "   * @desc  Fetch a foo  " = "* @desc  Fetch a foo"
  /\ Py.strip (String newline "  ") = "".
Proof. split; reflexivity. Qed.

Example replace_ex :
  Py.replace "a//b///c*d" "//" "" = "ab/c*d"
  /\ Py.replace "/api/v1/api/x" "/api/" "" = "v1x"
  /\ Py.replace "aaa" "aa" "b" = "ba".
Proof. repeat split; reflexivity. Qed.

Example split_ex :
  Py.split "/api/foo/" "/" = [""; "api"; "foo"; ""] /\ Py.split "" "/" = [""].
Proof. split; reflexivity. Qed.

Example capitalize_ex :
  Py.capitalize "carImport" = "Carimport" /\ Py.capitalize "car-import" = "Car-import".
Proof. split; reflexivity. Qed.

Example path_join_ex :
  ROUTES_DIR = "/Users/justinemahinyila/Codez/wexp/wexp-backend/src/routes"
  /\ Py.path_join ROUTES_DIR "auth.ts"
     = "/Users/justinemahinyila/Codez/wexp/wexp-backend/src/routes/auth.ts"
  /\ Py.path_join ROUTES_DIR "/tmp/x.ts" = "/tmp/x.ts".
Proof. repeat split; reflexivity. Qed.

Example route_match_ex :
  route_match "router.get('/:id', handler)" = Some ("get", "/:id")
  /\ route_match "  app.use(router.post  (  '/a/b' " = Some ("post", "/a/b")
  /\ route_match "router.get('/a" = None
  /\ route_match "router.options('/a')" = None.
Proof. repeat split; vm_compute; reflexivity. Qed.

(** ** Strings *)

Lemma prefix_cons (a b : ascii) (p s : string) :
  String.prefix (String a p) (String b s) = Ascii.eqb a b && String.prefix p s.
Proof.
  simpl. destruct (ascii_dec a b) as [->|Hne].
  - now rewrite Ascii.eqb_refl.
  - apply Ascii.eqb_neq in Hne. now rewrite Hne.
Qed.

Lemma prefix_empty (s : string) : String.prefix "" s = true.
Proof. now destruct s. Qed.

Lemma strip_prefix_app (p r : string) : strip_prefix p (p ++ r) = Some r.
Proof.
  induction p as [|a p IH]; simpl; [reflexivity|].
  now rewrite Ascii.eqb_refl.
Qed.

Lemma strip_prefix_Some (p s r : string) :
  strip_prefix p s = Some r -> s = p ++ r.
Proof.
  revert s. induction p as [|a p IH]; intros s H; simpl in *.
  - now injection H as ->.
  - destruct s as [|b s]; [discriminate|].
    destruct (Ascii.eqb_spec a b) as [->|]; [|discriminate].
    f_equal. now apply IH.
Qed.

Lemma prefix_strip_prefix (p s : string) :
  String.prefix p s = match strip_prefix p s with Some _ => true | None => false end.
Proof.
  revert s. induction p as [|a p IH]; intros [|b s]; try reflexivity.
  rewrite prefix_cons. simpl strip_prefix.
  destruct (Ascii.eqb a b); simpl; [apply IH|reflexivity].
Qed.

Lemma slength_app (a b : string) :
  String.length (a ++ b) = String.length a + String.length b.
Proof. induction a; simpl; congruence. Qed.

Lemma app_assoc_s (a b c : string) : (a ++ b) ++ c = a ++ (b ++ c).
Proof. induction a; simpl; congruence. Qed.

Lemma substring_app_l (m r : string) :
  substring 0 (String.length m) (m ++ r) = m.
Proof. induction m as [|a m IH]; simpl; [now destruct r|congruence]. Qed.

Lemma taken_app (m r : string) : Re.taken (m ++ r) r = m.
Proof.
  unfold Re.taken. rewrite slength_app.
  replace (String.length m + String.length r - String.length r)
    with (String.length m) by lia.
  apply substring_app_l.
Qed.

Lemma span_skip (p : ascii -> bool) (s : string) : s = span p s ++ skip p s.
Proof.
  induction s as [|c s IH]; simpl; [reflexivity|].
  destruct (p c); simpl; congruence.
Qed.

Lemma taken_skip (p : ascii -> bool) (s : string) :
  Re.taken s (skip p s) = span p s.
Proof. rewrite (span_skip p s) at 1. apply taken_app. Qed.

(** ** The matcher *)

Lemma run_lit {A : Type} (l s : string) (caps : Re.captures)
  (k : string -> Re.captures -> option A) :
  Re.run (Re.lit l) s caps k =
  match strip_prefix l s with
  | Some s' => k s' caps
  | None => None
  end.
Proof.
  revert s. induction l as [|a l IH]; intros s; simpl; [reflexivity|].
  destruct s as [|b s]; [reflexivity|].
  destruct (Ascii.eqb a b); [apply IH|reflexivity].
Qed.

(** A greedy star never gives a character back when what follows it
    rejects every character of the class. *)
Lemma star_det {A : Type} (p : ascii -> bool) (k : string -> option A) :
  (forall c s, p c = true -> k (String c s) = None) ->
  forall s, Re.star p s k = k (skip p s).
Proof.
  intros Hk. induction s as [|c s IH]; simpl; [reflexivity|].
  destruct (p c) eqn:Hp; [|reflexivity].
  rewrite IH. destruct (k (skip p s)); [reflexivity|].
  now apply Hk.
Qed.

Lemma isspace_not_paren (c : ascii) :
  Py.isspace c = true -> Ascii.eqb "("%char c = false.
Proof.
  intros H. destruct (Ascii.eqb_spec "("%char c) as [<-|]; [|reflexivity].
  discriminate H.
Qed.

Lemma isspace_not_quote (c : ascii) : Py.isspace c = true -> is_quote c = false.
Proof.
  intros H. unfold is_quote.
  destruct (Ascii.eqb_spec c single_quote) as [->|]; [discriminate H|].
  destruct (Ascii.eqb_spec c double_quote) as [->|]; [discriminate H|].
  reflexivity.
Qed.

Lemma run_methods {A : Type} (s : string) (caps : Re.captures)
  (k : string -> Re.captures -> option A) :
  Re.run (Re.Group 1
            (Re.Alt (Re.lit "get")
            (Re.Alt (Re.lit "post")
            (Re.Alt (Re.lit "put")
            (Re.Alt (Re.lit "delete") (Re.lit "patch")))))) s caps k =
  match first_prefix methods s with
  | Some (g1, s') => k s' ((1, g1) :: caps)
  | None => None
  end.
Proof.
  cbn [Re.run]. rewrite !run_lit. unfold methods. cbn [first_prefix].
  destruct (strip_prefix "get" s) as [r|] eqn:E1.
  { apply strip_prefix_Some in E1. subst s. rewrite taken_app.
    destruct (k r _); reflexivity. }
  destruct (strip_prefix "post" s) as [r|] eqn:E2.
  { apply strip_prefix_Some in E2. subst s. rewrite taken_app.
    destruct (k r _); reflexivity. }
  destruct (strip_prefix "put" s) as [r|] eqn:E3.
  { apply strip_prefix_Some in E3. subst s. rewrite taken_app.
    destruct (k r _); reflexivity. }
  destruct (strip_prefix "delete" s) as [r|] eqn:E4.
  { apply strip_prefix_Some in E4. subst s. rewrite taken_app.
    destruct (k r _); reflexivity. }
  destruct (strip_prefix "patch" s) as [r|] eqn:E5; [|reflexivity].
  apply strip_prefix_Some in E5. subst s. now rewrite taken_app.
Qed.

Lemma run_seq {A : Type} (r1 r2 : Re.regex) (s : string) (caps : Re.captures)
  (k : string -> Re.captures -> option A) :
  Re.run (Re.Seq r1 r2) s caps k =
  Re.run r1 s caps (fun s' caps' => Re.run r2 s' caps' k).
Proof. reflexivity. Qed.

Lemma skip_stops (p : ascii -> bool) (s : string) (c : ascii) (t : string) :
  skip p s = String c t -> p c = false.
Proof.
  induction s as [|a s IH]; simpl; [discriminate|].
  destruct (p a) eqn:Ha; [exact IH|].
  intros H. injection H as <- _. exact Ha.
Qed.

Lemma match_here_route (s : string) :
  Re.match_here route_re s =
  match route_at s with
  | Some (g1, g2, rest) => Some ([(2, g2); (1, g1)], rest)
  | None => None
  end.
Proof.
  unfold Re.match_here, route_re, route_at.
  rewrite run_seq, run_lit.
  destruct (strip_prefix "router." s) as [s1|]; [|reflexivity].
  rewrite run_seq, run_methods.
  destruct (first_prefix methods s1) as [[g1 s2]|]; [|reflexivity].
  cbn [Re.run].
  rewrite star_det.
  2:{ intros c t Hc. now rewrite (isspace_not_paren c Hc). }
  destruct (skip Py.isspace s2) as [|c3 s3]; [reflexivity|].
  destruct (Ascii.eqb "("%char c3); [|reflexivity].
  rewrite star_det.
  2:{ intros c t Hc. now rewrite (isspace_not_quote c Hc). }
  destruct (skip Py.isspace s3) as [|c4 s4]; [reflexivity|].
  destruct (is_quote c4); [|reflexivity].
  rewrite star_det.
  2:{ intros c t Hc. destruct (is_quote c); [discriminate Hc|reflexivity]. }
  fold not_quote.
  destruct (skip not_quote s4) as [|c5 s5] eqn:E5; [reflexivity|].
  pose proof (skip_stops _ _ _ _ E5) as Hq. unfold not_quote in Hq.
  apply negb_false_iff in Hq.
  rewrite Hq, <- E5, taken_skip. reflexivity.
Qed.

Lemma search_route (s : string) :
  Re.search route_re s =
  match route_search s with
  | Some (g1, g2, rest) => Some ([(2, g2); (1, g1)], rest)
  | None => None
  end.
Proof.
  induction s as [|c s IH]; cbn [Re.search route_search];
    rewrite match_here_route.
  - now destruct (route_at "") as [[[g1 g2] rest]|].
  - destruct (route_at (String c s)) as [[[g1 g2] rest]|]; [reflexivity|].
    exact IH.
Qed.

(** [route_match] is the deterministic search. *)
Lemma route_match_search (s : string) :
  route_match s =
  match route_search s with
  | Some (g1, g2, _) => Some (g1, g2)
  | None => None
  end.
Proof.
  unfold route_match. rewrite search_route.
  now destruct (route_search s) as [[[g1 g2] rest]|].
Qed.

Lemma first_prefix_Some (ms : list string) (s m r : string) :
  first_prefix ms s = Some (m, r) -> In m ms /\ s = m ++ r.
Proof.
  induction ms as [|m0 ms IH]; simpl; [discriminate|].
  destruct (strip_prefix m0 s) as [r0|] eqn:E.
  - intros H. injection H as <- <-. split; [now left|].
    now apply strip_prefix_Some.
  - intros H. destruct (IH H) as [Hin Hs]. split; [now right|exact Hs].
Qed.

Lemma first_prefix_methods (m r : string) :
  In m methods -> first_prefix methods (m ++ r) = Some (m, r).
Proof.
  unfold methods. simpl.
  intros [<-|[<-|[<-|[<-|[<-|[]]]]]]; reflexivity.
Qed.

Lemma skip_span_forall (p : ascii -> bool) (s : string) :
  Py.sforall p (span p s) = true.
Proof.
  induction s as [|c s IH]; simpl; [reflexivity|].
  destruct (p c) eqn:Hp; simpl; [now rewrite Hp|reflexivity].
Qed.

Lemma skip_app (p : ascii -> bool) (w : string) (c : ascii) (t : string) :
  Py.sforall p w = true -> p c = false ->
  skip p (w ++ String c t) = String c t /\ span p (w ++ String c t) = w.
Proof.
  intros Hw Hc. induction w as [|a w IH]; simpl in *.
  - now rewrite Hc.
  - apply andb_true_iff in Hw as [Ha Hw]. rewrite Ha.
    destruct (IH Hw) as [-> ->]. now split.
Qed.

(** The shape of the text at a position where the pattern matches. *)
Lemma route_at_Some (s g1 g2 rest : string) :
  route_at s = Some (g1, g2, rest) ->
  In g1 methods /\ Py.sforall not_quote g2 = true /\
  exists w1 w2 q1 q2,
    s = "router." ++ g1 ++ w1 ++ String "("%char (w2 ++ String q1 (g2 ++ String q2 rest))
    /\ Py.sforall Py.isspace w1 = true /\ Py.sforall Py.isspace w2 = true
    /\ is_quote q1 = true /\ is_quote q2 = true.
Proof.
  unfold route_at.
  destruct (strip_prefix "router." s) as [s1|] eqn:E1; [|discriminate].
  destruct (first_prefix methods s1) as [[m s2]|] eqn:E2; [|discriminate].
  destruct (skip Py.isspace s2) as [|c3 s3] eqn:E3; [discriminate|].
  destruct (Ascii.eqb_spec "("%char c3) as [<-|]; [|discriminate].
  destruct (skip Py.isspace s3) as [|c4 s4] eqn:E4; [discriminate|].
  destruct (is_quote c4) eqn:Hq4; [|discriminate].
  destruct (skip not_quote s4) as [|c5 s5] eqn:E5; [discriminate|].
  intros H. injection H as <- <- <-.
  apply strip_prefix_Some in E1. apply first_prefix_Some in E2 as [Hin E2].
  split; [exact Hin|]. split; [apply skip_span_forall|].
  exists (span Py.isspace s2), (span Py.isspace s3), c4, c5.
  pose proof (skip_stops _ _ _ _ E5) as Hq5. apply negb_false_iff in Hq5.
  repeat split; try assumption; try apply skip_span_forall.
  rewrite E1, E2. do 2 f_equal.
  rewrite (span_skip Py.isspace s2) at 1. rewrite E3. do 2 f_equal.
  rewrite (span_skip Py.isspace s3) at 1. rewrite E4. do 2 f_equal.
  rewrite (span_skip not_quote s4) at 1. now rewrite E5.
Qed.

(** Conversely, the pattern matches wherever the text has that shape. *)
Lemma route_at_intro (g1 g2 rest w1 w2 : string) (q1 q2 : ascii) :
  In g1 methods -> Py.sforall not_quote g2 = true ->
  Py.sforall Py.isspace w1 = true -> Py.sforall Py.isspace w2 = true ->
  is_quote q1 = true -> is_quote q2 = true ->
  route_at ("router." ++ g1 ++ w1
            ++ String "("%char (w2 ++ String q1 (g2 ++ String q2 rest)))
  = Some (g1, g2, rest).
Proof.
  intros Hin Hg2 Hw1 Hw2 Hq1 Hq2. unfold route_at.
  rewrite strip_prefix_app, (first_prefix_methods _ _ Hin).
  destruct (skip_app Py.isspace w1 "("%char
              (w2 ++ String q1 (g2 ++ String q2 rest)) Hw1 eq_refl) as [-> _].
  rewrite Ascii.eqb_refl.
  destruct (skip_app Py.isspace w2 q1 (g2 ++ String q2 rest) Hw2) as [-> _].
  { destruct (Py.isspace q1) eqn:E; [|reflexivity].
    apply isspace_not_quote in E. congruence. }
  rewrite Hq1.
  destruct (skip_app not_quote g2 q2 rest Hg2) as [-> ->];
    [unfold not_quote; now rewrite Hq2|reflexivity].
Qed.

Lemma route_search_Some (s g1 g2 rest : string) :
  route_search s = Some (g1, g2, rest) ->
  exists pre suf, s = pre ++ suf /\ route_at suf = Some (g1, g2, rest).
Proof.
  induction s as [|c s IH]; cbn [route_search].
  - destruct (route_at "") eqn:E; [|discriminate].
    intros H. injection H as ->. now exists "", "".
  - destruct (route_at (String c s)) eqn:E.
    + intros H. injection H as ->. now exists "", (String c s).
    + intros H. destruct (IH H) as (pre & suf & -> & Hat).
      now exists (String c pre), suf.
Qed.

(** A match somewhere in the text makes the search succeed. *)
Lemma route_search_app (pre suf : string) (m : string * string * string) :
  route_at suf = Some m -> exists m', route_search (pre ++ suf) = Some m'.
Proof.
  intros H. induction pre as [|c pre IH]; simpl "++".
  - exists m. destruct suf; cbn [route_search]; now rewrite H.
  - cbn [route_search]. destruct (route_at (String c (pre ++ suf))) as [m0|].
    + now exists m0.
    + exact IH.
Qed.

Lemma contains_app (sub pre post : string) :
  Py.contains sub (pre ++ sub ++ post) = true.
Proof.
  induction pre as [|c pre IH]; simpl "++".
  - destruct (sub ++ post) eqn:E; cbn [Py.contains];
      rewrite <- E, prefix_strip_prefix, strip_prefix_app; reflexivity.
  - cbn [Py.contains]. rewrite IH. apply orb_true_r.
Qed.

(** ** One line of the scan *)

Lemma route_search_at (s : string) (m : string * string * string) :
  route_at s = Some m -> route_search s = Some m.
Proof. intros H. destruct s; cbn [route_search]; now rewrite H. Qed.

Lemma declaration_app (m w1 w2 : string) (q1 : ascii) (sub : string)
  (q2 : ascii) (rest : string) :
  declaration m w1 w2 q1 sub q2 ++ rest =
  "router." ++ m ++ w1 ++ String "("%char (w2 ++ String q1 (sub ++ String q2 rest)).
Proof.
  unfold declaration. rewrite !app_assoc_s. simpl. do 10 f_equal.
  rewrite !app_assoc_s. simpl. do 2 f_equal. now rewrite app_assoc_s.
Qed.

Lemma well_formed_spec (m w1 w2 : string) (q1 : ascii) (sub : string)
  (q2 : ascii) :
  well_formed m w1 w2 q1 sub q2 = true ->
  In m methods /\ Py.sforall Py.isspace w1 = true
  /\ Py.sforall Py.isspace w2 = true /\ is_quote q1 = true
  /\ Py.sforall not_quote sub = true /\ is_quote q2 = true.
Proof.
  unfold well_formed. rewrite !andb_true_iff.
  intros [[[[[Hm H1] H2] H3] H4] H5]. repeat split; try assumption.
  apply existsb_exists in Hm as (x & Hin & Hx).
  apply String.eqb_eq in Hx. now subst.
Qed.

Lemma upper_methods (g1 : string) : In g1 methods -> In (Py.upper g1) METHODS.
Proof.
  unfold methods, METHODS. simpl.
  intros [<-|[<-|[<-|[<-|[<-|[]]]]]]; vm_compute; tauto.
Qed.

(** The fields of [build_route] are read off once the pair the inner
    loop returns is named. *)
Ltac open_build_route :=
  unfold build_route;
  match goal with
  | |- context [fold_left describe_step ?b ?i] =>
      destruct (fold_left describe_step b i); reflexivity
  end.

Lemma build_route_method (base : string) (buf : list string) (g1 g2 : string) :
  method (build_route base buf g1 g2) = Py.upper g1.
Proof. open_build_route. Qed.

Lemma build_route_path (base : string) (buf : list string) (g1 g2 : string) :
  path (build_route base buf g1 g2) = full_path_of base g2.
Proof. open_build_route. Qed.

(** A code line on which the pattern matches appends one record and
    empties the buffer. *)
Lemma scan_line_route (base : string) (routes : list route)
  (buf : list string) (line g1 g2 : string) :
  is_comment_line (Py.strip line) = false ->
  route_match (Py.strip line) = Some (g1, g2) ->
  scan_line base (routes, buf) line =
  ((routes ++ [build_route base buf g1 g2])%list, []).
Proof. intros Hc Hm. unfold scan_line. now rewrite Hc, Hm. Qed.

(** A comment line only touches the buffer. *)
Lemma scan_line_comment (base : string) (routes : list route)
  (buf : list string) (line : string) :
  is_comment_line (Py.strip line) = true ->
  fst (scan_line base (routes, buf) line) = routes.
Proof.
  intros Hc. unfold scan_line. rewrite Hc.
  now destruct (negb (String.eqb (clean_comment (Py.strip line)) "")).
Qed.

Lemma scan_line_keys (base : string) (routes : list route)
  (buf : list string) (line : string) :
  map route_key (fst (scan_line base (routes, buf) line)) =
  (map route_key routes ++ line_route base line)%list.
Proof.
  unfold line_route.
  destruct (is_comment_line (Py.strip line)) eqn:Hc.
  - rewrite scan_line_comment by exact Hc. now rewrite app_nil_r.
  - destruct (route_match (Py.strip line)) as [[g1 g2]|] eqn:Hm.
    + rewrite (scan_line_route _ _ _ _ _ _ Hc Hm). cbn [fst].
      rewrite map_app. cbn [map]. unfold route_key at 2.
      now rewrite build_route_method, build_route_path.
    + unfold scan_line. rewrite Hc, Hm, app_nil_r.
      destruct (String.eqb (Py.strip (Py.strip line)) ""); [reflexivity|].
      now destruct (negb (Py.startswith (Py.strip line) "router.")).
Qed.

Lemma scan_fold_keys (base : string) (lines : list string) (st : scan_state) :
  map route_key (fst (fold_left (scan_line base) lines st)) =
  (map route_key (fst st) ++ flat_map (line_route base) lines)%list.
Proof.
  revert st. induction lines as [|l lines IH]; intros [routes buf];
    cbn [fold_left flat_map fst].
  - now rewrite app_nil_r.
  - rewrite IH.
    pose proof (scan_line_keys base routes buf l) as H.
    destruct (scan_line base (routes, buf) l) as [routes' buf'].
    cbn [fst] in *. now rewrite H, <- app_assoc.
Qed.

Lemma line_route_length (base line : string) :
  List.length (line_route base line) = if is_route_line line then 1 else 0.
Proof.
  unfold line_route, is_route_line.
  destruct (is_comment_line (Py.strip line)); [reflexivity|].
  now destruct (route_match (Py.strip line)) as [[g1 g2]|].
Qed.

Lemma flat_map_line_route_length (base : string) (lines : list string) :
  List.length (flat_map (line_route base) lines) =
  List.length (filter is_route_line lines).
Proof.
  induction lines as [|l lines IH]; simpl; [reflexivity|].
  rewrite List.length_app, line_route_length, IH.
  now destruct (is_route_line l).
Qed.

(** ** Recognition of the method name *)

(** C1, counterexample.  The claim takes [router.GET(...)] to be
    recognized like [router.get(...)].  The line
    [router.GET('/a', h)] names the method GET under the
    case-insensitive reading of the pattern, and the lowercase spelling of
    the same line yields a record, but on the uppercase spelling the
    pattern of the script does not match and no record is emitted. *)
Lemma uppercase_method_not_recognized :
  Spec.named_method "router.GET('/a', h)" = Some "GET"
  /\ map route_key (parse_route_text "/api/x" "router.get('/a', h)")
     = [("GET", "/api/x/a")]
  /\ route_match "router.GET('/a', h)" = None
  /\ parse_route_text "/api/x" "router.GET('/a', h)" = [].
Proof. repeat split; vm_compute; reflexivity. Qed.

(** C1, amended.  Recognition is case-sensitive: the method must be
    spelled in lowercase.  Every line that is not a comment line and
    contains a well-formed route call with a lowercase method name emits
    exactly one record; its method field is the uppercase form of a
    lowercase method name [g1] that stands right after [router.] in the
    line, and it is one of GET, POST, PUT, DELETE, PATCH.  When the call
    opens the line, [g1] is the method of that call and the path comes
    from its sub-path. *)
Theorem lowercase_method_recognized :
  forall (base : string) (routes : list route) (buf : list string)
         (line pre m w1 w2 : string) (q1 : ascii) (sub : string) (q2 : ascii)
         (rest : string),
    well_formed m w1 w2 q1 sub q2 = true ->
    Py.strip line = pre ++ declaration m w1 w2 q1 sub q2 ++ rest ->
    is_comment_line (Py.strip line) = false ->
    exists (r : route) (g1 : string),
      scan_line base (routes, buf) line = ((routes ++ [r])%list, [])
      /\ In g1 methods
      /\ method r = Py.upper g1
      /\ In (method r) METHODS
      /\ Py.contains ("router." ++ g1) (Py.strip line) = true
      /\ (pre = "" -> g1 = m /\ path r = full_path_of base sub).
Proof.
  intros base routes buf line pre m w1 w2 q1 sub q2 rest Hwf Hline Hc.
  apply well_formed_spec in Hwf as (Hm & Hw1 & Hw2 & Hq1 & Hsub & Hq2).
  pose proof (route_at_intro m sub rest w1 w2 q1 q2 Hm Hsub Hw1 Hw2 Hq1 Hq2)
    as Hat.
  rewrite <- declaration_app in Hat.
  destruct (route_search_app pre _ _ Hat) as [[[g1 g2] rest'] Hs].
  rewrite <- Hline in Hs.
  assert (Hmatch : route_match (Py.strip line) = Some (g1, g2))
    by now rewrite route_match_search, Hs.
  exists (build_route base buf g1 g2), g1.
  destruct (route_search_Some _ _ _ _ Hs) as (pre' & suf & Hsplit & Hat').
  destruct (route_at_Some _ _ _ _ Hat') as (Hg1 & _ & x1 & x2 & y1 & y2 & Hsuf & _).
  rewrite build_route_method, build_route_path.
  split; [now apply scan_line_route|].
  split; [exact Hg1|].
  split; [reflexivity|].
  split; [now apply upper_methods|].
  split.
  - rewrite Hsplit, Hsuf, <- (app_assoc_s "router." g1). apply contains_app.
  - intros ->.
    change (Py.strip line = declaration m w1 w2 q1 sub q2 ++ rest) in Hline.
    rewrite Hline, (route_search_at _ _ Hat) in Hs.
    injection Hs as <- <- _. now split.
Qed.

Lemma lowercase_method_recognized_witness :
  exists (r : route) (g1 : string),
    scan_line "/api/foo" ([], ["Fetch a foo by id"])
      "  router.post ( '/bar/', handler)  "
    = (([] ++ [r])%list, [])
    /\ In g1 methods
    /\ method r = Py.upper g1
    /\ In (method r) METHODS
    /\ Py.contains ("router." ++ g1)
         (Py.strip "  router.post ( '/bar/', handler)  ") = true
    /\ ("" = "" -> g1 = "post" /\ path r = full_path_of "/api/foo" "/bar/").
Proof.
  apply (lowercase_method_recognized "/api/foo" [] ["Fetch a foo by id"]
           "  router.post ( '/bar/', handler)  " "" "post" " " " "
           single_quote "/bar/" single_quote ", handler)");
    reflexivity.
Defined.

(** ** One record per route line, in order *)

Lemma parse_route_text_keys (base text : string) :
  map route_key (parse_route_text base text)
  = flat_map (line_route base) (Py.split text newline).
Proof.
  unfold parse_route_text.
  now rewrite (scan_fold_keys base (Py.split text newline) ([], [])).
Qed.

Example two_calls_on_a_line_ex :
  map route_key
    (parse_route_text "/api/x" "router.get('/a', h); router.post('/b', h)")
  = [("GET", "/api/x/a")].
Proof. vm_compute; reflexivity. Qed.

Example call_split_over_lines_ex :
  Spec.declarations_in
    ("router.get(" ++ String newline "  '/a', h)") = 1
  /\ parse_route_text "/api/x"
       ("router.get(" ++ String newline "  '/a', h)") = [].
Proof. split; vm_compute; reflexivity. Qed.

(** C5, counterexample.  The text
    [router.get('/a', h); router.post('/b', h)] holds two well-formed
    route declarations, and the extractor returns one record for it: the
    search stops at the first match of a line. *)
Lemma two_declarations_one_record :
  Spec.declarations_in "router.get('/a', h); router.post('/b', h)" = 2
  /\ List.length
       (parse_route_text "/api/x" "router.get('/a', h); router.post('/b', h)")
     = 1.
Proof. split; vm_compute; reflexivity. Qed.

Lemma well_formed_intro (m w1 w2 : string) (q1 : ascii) (sub : string)
  (q2 : ascii) :
  In m methods -> Py.sforall Py.isspace w1 = true ->
  Py.sforall Py.isspace w2 = true -> is_quote q1 = true ->
  Py.sforall not_quote sub = true -> is_quote q2 = true ->
  well_formed m w1 w2 q1 sub q2 = true.
Proof.
  intros Hm H1 H2 H3 H4 H5. unfold well_formed.
  rewrite H1, H2, H3, H4, H5, !andb_true_r.
  apply existsb_exists. exists m. split; [exact Hm|apply String.eqb_refl].
Qed.

(** The pattern matches at the start of a text exactly when the text
    opens with a well-formed declaration, and the groups are its method
    and sub-path. *)
Lemma declares_at_route_at (s m sub : string) :
  declares_at s m sub <-> exists rest, route_at s = Some (m, sub, rest).
Proof.
  split.
  - intros (w1 & w2 & q1 & q2 & rest & Hwf & ->). exists rest.
    apply well_formed_spec in Hwf as (Hm & Hw1 & Hw2 & Hq1 & Hsub & Hq2).
    rewrite declaration_app. now apply route_at_intro.
  - intros (rest & H).
    destruct (route_at_Some _ _ _ _ H)
      as (Hm & Hsub & w1 & w2 & q1 & q2 & -> & Hw1 & Hw2 & Hq1 & Hq2).
    exists w1, w2, q1, q2, rest. split; [now apply well_formed_intro|].
    now rewrite declaration_app.
Qed.

Lemma app_eq_empty_r (a b : string) : a ++ b = "" -> b = "".
Proof. destruct a; cbn [append]; [easy|discriminate]. Qed.

(** The search returns the match at the first position that has one. *)
Lemma route_search_first (s g1 g2 rest : string) :
  route_search s = Some (g1, g2, rest) ->
  exists pre suf : string,
    s = pre ++ suf /\ route_at suf = Some (g1, g2, rest)
    /\ forall pre1 pre2 : string,
         pre = pre1 ++ pre2 -> pre2 <> "" -> route_at (pre2 ++ suf) = None.
Proof.
  induction s as [|c s IH]; cbn [route_search].
  - destruct (route_at "") eqn:E; [|discriminate].
    intros H. injection H as ->. exists "", "". repeat split; [exact E|].
    intros pre1 pre2 Hp Hne. symmetry in Hp. apply app_eq_empty_r in Hp.
    contradiction.
  - destruct (route_at (String c s)) eqn:E.
    + intros H. injection H as ->. exists "", (String c s).
      repeat split; [exact E|].
      intros pre1 pre2 Hp Hne. symmetry in Hp. apply app_eq_empty_r in Hp.
      contradiction.
    + intros H. destruct (IH H) as (pre & suf & -> & Hat & Hfirst).
      exists (String c pre), suf. repeat split; [exact Hat|].
      intros pre1 pre2 Hp Hne. destruct pre1 as [|c1 pre1]; cbn [append] in Hp.
      * subst pre2. exact E.
      * injection Hp as _ Hp. now apply (Hfirst pre1 pre2).
Qed.

Lemma route_search_leftmost (pre suf : string) (m : string * string * string) :
  route_at suf = Some m ->
  (forall pre1 pre2 : string,
      pre = pre1 ++ pre2 -> pre2 <> "" -> route_at (pre2 ++ suf) = None) ->
  route_search (pre ++ suf) = Some m.
Proof.
  intros Hat. induction pre as [|c pre IH]; intros Hfirst; cbn [append].
  - now apply route_search_at.
  - cbn [route_search].
    assert (E : route_at (String c (pre ++ suf)) = None)
      by (apply (Hfirst "" (String c pre) eq_refl); discriminate).
    rewrite E.
    apply IH. intros pre1 pre2 Hp Hne.
    apply (Hfirst (String c pre1) pre2); [cbn [append]; now f_equal|exact Hne].
Qed.

Lemma route_search_None (s : string) :
  route_search s = None ->
  forall pre suf : string, s = pre ++ suf -> route_at suf = None.
Proof.
  induction s as [|c s IH]; cbn [route_search]; intros H pre suf Hs.
  - destruct (route_at "") eqn:E; [discriminate|].
    destruct pre; [|discriminate]. cbn [append] in Hs. now subst suf.
  - destruct (route_at (String c s)) eqn:E; [discriminate|].
    destruct pre as [|c' pre]; cbn [append] in Hs.
    + now subst suf.
    + injection Hs as _ Hs. now apply (IH H pre).
Qed.

(** [re.search] finds the first well-formed declaration of a line, and
    finds nothing only when the line has none. *)
Lemma route_match_first (line g1 g2 : string) :
  route_match line = Some (g1, g2) <-> first_declaration line g1 g2.
Proof.
  rewrite route_match_search. split.
  - destruct (route_search line) as [[[x1 x2] rest]|] eqn:Hs; [|discriminate].
    intros H. injection H as -> ->.
    destruct (route_search_first _ _ _ _ Hs) as (pre & suf & -> & Hat & Hfirst).
    exists pre, suf. split; [reflexivity|]. split.
    + apply declares_at_route_at. now exists rest.
    + intros pre1 pre2 m' sub' Hp Hne Hd.
      apply declares_at_route_at in Hd as [rest' Hd].
      rewrite (Hfirst pre1 pre2 Hp Hne) in Hd. discriminate.
  - intros (pre & suf & -> & Hd & Hfirst).
    apply declares_at_route_at in Hd as [rest Hat].
    rewrite (route_search_leftmost pre suf _ Hat); [reflexivity|].
    intros pre1 pre2 Hp Hne.
    destruct (route_at (pre2 ++ suf)) as [[[m' sub'] rest']|] eqn:E;
      [|reflexivity].
    elim (Hfirst pre1 pre2 m' sub' Hp Hne).
    apply declares_at_route_at. now exists rest'.
Qed.

Lemma route_match_none (line : string) :
  route_match line = None <-> no_declaration line.
Proof.
  rewrite route_match_search. split.
  - destruct (route_search line) as [[[x1 x2] rest]|] eqn:Hs; [discriminate|].
    intros _ pre suf m sub Hl Hd.
    apply declares_at_route_at in Hd as [rest Hat].
    rewrite (route_search_None _ Hs pre suf Hl) in Hat. discriminate.
  - intros Hno.
    destruct (route_search line) as [[[x1 x2] rest]|] eqn:Hs; [|reflexivity].
    destruct (route_search_Some _ _ _ _ Hs) as (pre & suf & Hl & Hat).
    elim (Hno pre suf x1 x2 Hl). apply declares_at_route_at. now exists rest.
Qed.

(** C5, amended.  The extractor returns exactly one record for every
    line that, once trimmed, is not a comment line and contains a
    well-formed route declaration, and none for any other line; the
    records come in the order of these lines, each with the method and
    the path of the first declaration on its line.  What a line gives is
    settled by its text: nothing for a comment line, nothing for a line
    in which no well-formed declaration starts at any position, and for
    any other line the uppercase method and the normalized path of the
    declaration that starts leftmost. *)
Theorem one_record_per_route_line :
  forall (base text : string),
    map route_key (parse_route_text base text)
    = flat_map (line_route base) (Py.split text newline)
    /\ List.length (parse_route_text base text)
       = List.length (filter is_route_line (Py.split text newline))
    /\ forall l : string,
         (is_comment_line (Py.strip l) = true ->
          line_route base l = [] /\ is_route_line l = false)
         /\ (is_comment_line (Py.strip l) = false ->
             no_declaration (Py.strip l) ->
             line_route base l = [] /\ is_route_line l = false)
         /\ (is_comment_line (Py.strip l) = false ->
             forall m sub : string,
               first_declaration (Py.strip l) m sub ->
               line_route base l = [(Py.upper m, full_path_of base sub)]
               /\ is_route_line l = true)
         /\ (no_declaration (Py.strip l)
             \/ exists m sub : string, first_declaration (Py.strip l) m sub).
Proof.
  intros base text. split; [apply parse_route_text_keys|]. split.
  { rewrite <- flat_map_line_route_length with (base := base).
    rewrite <- parse_route_text_keys. now rewrite length_map. }
  intros l. unfold line_route, is_route_line. split; [|split; [|split]].
  - intros Hc. now rewrite Hc.
  - intros Hc Hno. apply route_match_none in Hno. now rewrite Hc, Hno.
  - intros Hc m sub Hfirst. apply route_match_first in Hfirst.
    now rewrite Hc, Hfirst.
  - destruct (route_match (Py.strip l)) as [[g1 g2]|] eqn:Hm.
    + right. exists g1, g2. now apply route_match_first.
    + left. now apply route_match_none.
Qed.

Lemma one_record_per_route_line_witness :
  (line_route "/api/x" "  app.use(router.get('/a', h)); router.post('/b', h)"
   = [("GET", "/api/x/a")]
   /\ is_route_line "  app.use(router.get('/a', h)); router.post('/b', h)"
      = true)
  /\ (line_route "/api/x" "router.GET('/a', h)" = []
      /\ is_route_line "router.GET('/a', h)" = false).
Proof.
  destruct (one_record_per_route_line "/api/x" "") as (_ & _ & H).
  split.
  - destruct (H "  app.use(router.get('/a', h)); router.post('/b', h)")
      as (_ & _ & Hfirst & _).
    apply (Hfirst eq_refl "get" "/a").
    apply route_match_first. vm_compute. reflexivity.
  - destruct (H "router.GET('/a', h)") as (_ & Hnone & _).
    apply (Hnone eq_refl).
    apply route_match_none. vm_compute. reflexivity.
Defined.

(** ** Comment lines *)

Lemma flat_map_app_s {A B : Type} (f : A -> list B) (l1 l2 : list A) :
  flat_map f (l1 ++ l2)%list = (flat_map f l1 ++ flat_map f l2)%list.
Proof.
  induction l1 as [|a l1 IH]; simpl; [reflexivity|].
  now rewrite IH, app_assoc.
Qed.

(** C10.  A line whose trimmed text starts with the block-open marker,
    a star or a double slash is taken as a comment line: the scan leaves
    [routes] as it is and only updates the buffer, whatever else the line
    contains, and taking the line out of a file does not change the
    methods and paths extracted from it. *)
Theorem comment_line_emits_no_route :
  forall (base : string) (routes : list route) (buf : list string)
         (line : string),
    Py.startswith (Py.strip line) "/**" = true
    \/ Py.startswith (Py.strip line) "*" = true
    \/ Py.startswith (Py.strip line) "//" = true ->
    fst (scan_line base (routes, buf) line) = routes
    /\ snd (scan_line base (routes, buf) line)
       = (let kept :=
            if Py.startswith (Py.strip line) "/**" then [] else buf in
          if String.eqb (clean_comment (Py.strip line)) "" then kept
          else kept ++ [clean_comment (Py.strip line)])%list
    /\ is_route_line line = false
    /\ forall (before after : list string),
         map route_key
           (fst (fold_left (scan_line base) (before ++ line :: after)%list
                   ([], [])))
         = map route_key
             (fst (fold_left (scan_line base) (before ++ after)%list ([], []))).
Proof.
  intros base routes buf line H.
  assert (Hc : is_comment_line (Py.strip line) = true).
  { unfold is_comment_line.
    destruct H as [H | [H | H]]; rewrite H, ?orb_true_r; reflexivity. }
  split; [now apply scan_line_comment|].
  split.
  { unfold scan_line. rewrite Hc.
    now destruct (String.eqb (clean_comment (Py.strip line)) ""). }
  split; [unfold is_route_line; now rewrite Hc|].
  intros before after. rewrite !scan_fold_keys, !flat_map_app_s.
  cbn [flat_map]. unfold line_route at 2. now rewrite Hc.
Qed.

Lemma comment_line_emits_no_route_witness :
  fst (scan_line "/api/x" ([], ["doc"]) "  // router.get('/a', h)") = []
  /\ snd (scan_line "/api/x" ([], ["doc"]) "  // router.get('/a', h)")
     = ["doc"; "router.get('/a', h)"]
  /\ is_route_line "  // router.get('/a', h)" = false
  /\ Spec.declarations_in "  // router.get('/a', h)" = 1.
Proof.
  destruct (comment_line_emits_no_route "/api/x" [] ["doc"]
              "  // router.get('/a', h)") as (H1 & H2 & H3 & _).
  - right; right; reflexivity.
  - split; [exact H1|]. split; [rewrite H2; reflexivity|].
    split; [exact H3|reflexivity].
Defined.

(** ** Trimming *)

Lemma lstrip_head (s : string) :
  lstrip_done (Py.lstrip s) = true.
Proof.
  induction s as [|c s IH]; simpl; [reflexivity|].
  destruct (Py.isspace c) eqn:E; [exact IH|]. simpl. now rewrite E.
Qed.

Lemma rstrip_idem (s : string) : Py.rstrip (Py.rstrip s) = Py.rstrip s.
Proof.
  induction s as [|c s IH]; [reflexivity|].
  cbn [Py.rstrip]. destruct (Py.rstrip s) as [|a r] eqn:E.
  - destruct (Py.isspace c) eqn:Hc; [reflexivity|]. simpl. now rewrite Hc.
  - cbn [Py.rstrip]. cbn [Py.rstrip] in IH. now rewrite IH.
Qed.

Lemma rstrip_head (s : string) :
  lstrip_done s = true -> lstrip_done (Py.rstrip s) = true.
Proof.
  destruct s as [|c s]; [reflexivity|]. cbn [lstrip_done Py.rstrip].
  intros Hc. destruct (Py.rstrip s).
  - apply negb_true_iff in Hc. rewrite Hc. simpl. now rewrite Hc.
  - exact Hc.
Qed.

Lemma lstrip_id (s : string) : lstrip_done s = true -> Py.lstrip s = s.
Proof.
  destruct s as [|c s]; [reflexivity|]. simpl.
  intros Hc. apply negb_true_iff in Hc. now rewrite Hc.
Qed.

(** Trimming twice is trimming once. *)
Lemma strip_idem (s : string) : Py.strip (Py.strip s) = Py.strip s.
Proof.
  unfold Py.strip.
  rewrite (lstrip_id (Py.rstrip (Py.lstrip s)))
    by (apply rstrip_head, lstrip_head).
  apply rstrip_idem.
Qed.

(** ** The buffer *)

(** C7.  The buffer is emptied when a record is emitted, and that record
    is built from the buffer as it stood; a line that is neither a
    comment line, nor a route line, nor blank empties it unless the line
    starts with [router.], in which case it is kept; a blank line changes
    neither the buffer nor the routes. *)
Theorem buffer_clearing_discipline :
  forall (base : string) (routes : list route) (buf : list string)
         (line : string),
    (is_route_line line = true ->
     exists g1 g2 : string,
       scan_line base (routes, buf) line
       = ((routes ++ [build_route base buf g1 g2])%list, []))
    /\ (is_comment_line (Py.strip line) = false ->
        route_match (Py.strip line) = None ->
        Py.strip line <> "" ->
        scan_line base (routes, buf) line
        = (routes, if Py.startswith (Py.strip line) "router." then buf else []))
    /\ (Py.strip line = "" -> scan_line base (routes, buf) line = (routes, buf)).
Proof.
  intros base routes buf line. split; [|split].
  - unfold is_route_line. intros H. apply andb_true_iff in H as [Hc Hm].
    apply negb_true_iff in Hc.
    destruct (route_match (Py.strip line)) as [[g1 g2]|] eqn:E; [|discriminate].
    exists g1, g2. now apply scan_line_route.
  - intros Hc Hm Hne. unfold scan_line. rewrite Hc, Hm, strip_idem.
    apply String.eqb_neq in Hne. rewrite Hne.
    now destruct (Py.startswith (Py.strip line) "router.").
  - intros Hb. unfold scan_line. rewrite Hb. reflexivity.
Qed.

Lemma buffer_clearing_discipline_witness :
  (exists g1 g2 : string,
     scan_line "/api/x" ([], ["Fetch"]) "router.get('/a', h)"
     = (([] ++ [build_route "/api/x" ["Fetch"] g1 g2])%list, []))
  /\ scan_line "/api/x" ([], ["Fetch"]) "const x = 1;" = ([], [])
  /\ scan_line "/api/x" ([], ["Fetch"]) "router.get(" = ([], ["Fetch"])
  /\ scan_line "/api/x" ([], ["Fetch"]) "   " = ([], ["Fetch"]).
Proof.
  split; [|split; [|split]].
  - exact (proj1 (buffer_clearing_discipline "/api/x" [] ["Fetch"]
                    "router.get('/a', h)") eq_refl).
  - refine (proj1 (proj2 (buffer_clearing_discipline "/api/x" [] ["Fetch"]
                            "const x = 1;")) eq_refl eq_refl _).
    discriminate.
  - refine (proj1 (proj2 (buffer_clearing_discipline "/api/x" [] ["Fetch"]
                            "router.get(")) eq_refl eq_refl _).
    discriminate.
  - exact (proj2 (proj2 (buffer_clearing_discipline "/api/x" [] ["Fetch"]
                           "   ")) eq_refl).
Defined.

(** ** The full path *)

Lemma endswith_app (q p : string) : Py.endswith (q ++ p) p = true.
Proof.
  induction q as [|c q IH]; simpl "++".
  - destruct p; cbn [Py.endswith]; now rewrite String.eqb_refl.
  - cbn [Py.endswith]. rewrite IH. apply orb_true_r.
Qed.

Lemma endswith_split (s p : string) :
  Py.endswith s p = true -> exists q, s = q ++ p.
Proof.
  induction s as [|c s IH]; cbn [Py.endswith]; intros H;
    apply orb_true_iff in H as [H|H].
  - apply String.eqb_eq in H. now exists "".
  - discriminate.
  - apply String.eqb_eq in H. now exists "".
  - destruct (IH H) as [q ->]. now exists (String c q).
Qed.

Lemma drop_last_app (q : string) (c : ascii) :
  Py.drop_last (q ++ String c "") = q.
Proof.
  induction q as [|a q IH]; [reflexivity|].
  simpl "++". cbn [Py.drop_last]. rewrite IH.
  now destruct q.
Qed.

(** C6.  A recognized route gets the path [base_path + sub-path]; when
    that text ends in a slash and is longer than one character its last
    slash is dropped, and otherwise it is kept whole.  So the sub-path
    [/] under [/api/foo] gives [/api/foo], and [/bar/] gives
    [/api/foo/bar]. *)
Theorem full_path_drops_trailing_slash :
  (forall (base : string) (routes : list route) (buf : list string)
          (line g1 g2 : string),
      is_comment_line (Py.strip line) = false ->
      route_match (Py.strip line) = Some (g1, g2) ->
      exists r : route,
        scan_line base (routes, buf) line = ((routes ++ [r])%list, [])
        /\ (forall q : string,
              base ++ g2 = q ++ "/" -> 1 < String.length (base ++ g2) ->
              path r = q)
        /\ ((forall q : string, base ++ g2 <> q ++ "/")
            \/ String.length (base ++ g2) <= 1 ->
            path r = base ++ g2))
  /\ map path (parse_route_text "/api/foo" "router.get('/', handler)")
     = ["/api/foo"]
  /\ map path (parse_route_text "/api/foo" "router.get('/bar/', handler)")
     = ["/api/foo/bar"].
Proof.
  split; [|split; vm_compute; reflexivity].
  intros base routes buf line g1 g2 Hc Hm.
  exists (build_route base buf g1 g2).
  split; [now apply scan_line_route|].
  rewrite build_route_path. unfold full_path_of. split.
  - intros q Hq Hlen. rewrite Hq at 1. rewrite endswith_app.
    apply Nat.ltb_lt in Hlen. rewrite Hlen. cbn [andb].
    rewrite Hq. apply drop_last_app.
  - intros [Hno|Hlen].
    + destruct (Py.endswith (base ++ g2) "/") eqn:E; [|reflexivity].
      destruct (endswith_split _ _ E) as [q Hq]. now elim (Hno q).
    + apply Nat.ltb_ge in Hlen. rewrite Hlen. now rewrite andb_false_r.
Qed.

Lemma full_path_drops_trailing_slash_witness :
  exists r : route,
    scan_line "/api/foo" ([], []) "router.put('/bar/', handler)"
    = (([] ++ [r])%list, [])
    /\ path r = "/api/foo/bar".
Proof.
  destruct (proj1 full_path_drops_trailing_slash "/api/foo" [] []
              "router.put('/bar/', handler)" "put" "/bar/" eq_refl eq_refl)
    as (r & Hr & Hdrop & _).
  exists r. split; [exact Hr|].
  apply (Hdrop "/api/foo/bar"); [reflexivity|simpl; lia].
Defined.

(** ** The outer loop *)

Lemma process_entry_acc (fs : file_system) (out : list string)
  (items : list folder) (e : string * string) :
  process_entry fs (out, items) e =
  ((out ++ fst (entry_output fs e))%list, (items ++ snd (entry_output fs e))%list).
Proof.
  unfold entry_output, process_entry. destruct e as [filename base].
  destruct (parse_route_file fs filename base) as [printed [|r routes]];
    cbn [fst snd app]; now rewrite ?app_nil_r, <- ?app_assoc.
Qed.

Lemma process_fold_acc (fs : file_system) (mapping : list (string * string))
  (out : list string) (items : list folder) :
  fold_left (process_entry fs) mapping (out, items) =
  ((out ++ fst (process_entries fs mapping))%list,
   (items ++ snd (process_entries fs mapping))%list).
Proof.
  unfold process_entries. revert out items.
  induction mapping as [|e mapping IH]; intros out items; cbn [fold_left].
  - cbn [fst snd]. now rewrite !app_nil_r.
  - rewrite process_entry_acc, IH.
    rewrite (process_entry_acc fs [] [] e), (IH (_ ++ _)%list (_ ++ _)%list).
    cbn [fst snd app]. now rewrite !app_assoc.
Qed.

(** The loop over [before ++ e :: after] is the loop over [before], the
    entry [e], and the loop over [after], one after the other. *)
Lemma process_entries_split (fs : file_system)
  (before after : list (string * string)) (e : string * string) :
  process_entries fs (before ++ e :: after) =
  ((fst (process_entries fs before) ++ fst (entry_output fs e)
    ++ fst (process_entries fs after))%list,
   (snd (process_entries fs before) ++ snd (entry_output fs e)
    ++ snd (process_entries fs after))%list).
Proof.
  unfold process_entries at 1. rewrite fold_left_app. cbn [fold_left].
  fold (process_entries fs before).
  destruct (process_entries fs before) as [out items].
  rewrite process_entry_acc, process_fold_acc. cbn [fst snd].
  now rewrite <- !app_assoc.
Qed.

Lemma process_entries_folders (fs : file_system)
  (mapping : list (string * string)) (f : folder) :
  In f (snd (process_entries fs mapping)) ->
  exists filename base r routes,
    In (filename, base) mapping
    /\ snd (parse_route_file fs filename base) = r :: routes
    /\ f = mkFolder (folder_name_of base) (map make_request_item (r :: routes)).
Proof.
  induction mapping as [|e mapping IH].
  - intros [].
  - change (e :: mapping) with ([] ++ e :: mapping)%list.
    rewrite process_entries_split. cbn [snd fst process_entries fold_left app].
    intros H. apply in_app_or in H as [H|H].
    + destruct e as [filename base]. unfold entry_output, process_entry in H.
      destruct (parse_route_file fs filename base) as [printed [|r routes]] eqn:E;
        cbn [snd app] in H; [destruct H|].
      destruct H as [<-|[]]. exists filename, base, r, routes.
      rewrite E. repeat split. now left.
    + destruct (IH H) as (fn & b & r & rs & Hin & Hp & Hf).
      exists fn, b, r, rs. repeat split; try assumption. now right.
Qed.

(** ** Missing and empty files *)

(** C8.  For a mapping entry whose file does not exist, the reader
    prints one warning that names the path and returns no routes; the
    loop prints the progress line and that warning for the entry, goes on
    with the entries that follow, and the entry adds no folder.  An entry
    whose file exists and yields no route prints its progress line only
    and adds no folder either. *)
Theorem missing_or_empty_file_adds_no_folder :
  forall (fs : file_system) (before after : list (string * string))
         (filename base : string),
    (fs (Py.path_join ROUTES_DIR filename) = None ->
     parse_route_file fs filename base
     = (["Warning: File not found: " ++ Py.path_join ROUTES_DIR filename], [])
     /\ process_entries fs (before ++ (filename, base) :: after)
        = ((fst (process_entries fs before)
            ++ [("Processing " ++ filename ++ "...")%string;
                ("Warning: File not found: "
                 ++ Py.path_join ROUTES_DIR filename)%string]
            ++ fst (process_entries fs after))%list,
           (snd (process_entries fs before)
            ++ snd (process_entries fs after))%list))
    /\ (forall content : string,
          fs (Py.path_join ROUTES_DIR filename) = Some content ->
          parse_route_text base content = [] ->
          process_entries fs (before ++ (filename, base) :: after)
          = ((fst (process_entries fs before)
              ++ [("Processing " ++ filename ++ "...")%string]
              ++ fst (process_entries fs after))%list,
             (snd (process_entries fs before)
              ++ snd (process_entries fs after))%list)).
Proof.
  intros fs before after filename base. split.
  - intros Hnone.
    assert (Hp : parse_route_file fs filename base
                 = (["Warning: File not found: "
                     ++ Py.path_join ROUTES_DIR filename], []))
      by (unfold parse_route_file; now rewrite Hnone).
    split; [exact Hp|].
    rewrite process_entries_split. unfold entry_output, process_entry.
    rewrite Hp. reflexivity.
  - intros content Hsome Hempty.
    rewrite process_entries_split. unfold entry_output, process_entry.
    unfold parse_route_file. rewrite Hsome, Hempty. reflexivity.
Qed.

Lemma missing_or_empty_file_adds_no_folder_witness :
  process_entries
    (fun p => if String.eqb p (Py.path_join ROUTES_DIR "b.ts")
              then Some "router.get('/b', h)"
              else if String.eqb p (Py.path_join ROUTES_DIR "c.ts")
              then Some "const x = 1;"
              else None)
    [("a.ts", "/api/a"); ("c.ts", "/api/c"); ("b.ts", "/api/b")]
  = (["Processing a.ts...";
      "Warning: File not found: " ++ Py.path_join ROUTES_DIR "a.ts";
      "Processing c.ts...";
      "Processing b.ts..."],
     [mkFolder "B"
        (map make_request_item (parse_route_text "/api/b" "router.get('/b', h)"))]).
Proof.
  set (fs := fun p => if String.eqb p (Py.path_join ROUTES_DIR "b.ts")
                      then Some "router.get('/b', h)"
                      else if String.eqb p (Py.path_join ROUTES_DIR "c.ts")
                      then Some "const x = 1;"
                      else None).
  destruct (missing_or_empty_file_adds_no_folder fs []
              [("c.ts", "/api/c"); ("b.ts", "/api/b")] "a.ts" "/api/a")
    as [Hmissing _].
  destruct (Hmissing eq_refl) as [_ Ha].
  destruct (missing_or_empty_file_adds_no_folder fs []
              [("b.ts", "/api/b")] "c.ts" "/api/c")
    as [_ Hempty].
  specialize (Hempty "const x = 1;" eq_refl eq_refl).
  cbn [app] in Ha, Hempty. rewrite Ha, Hempty. reflexivity.
Defined.

Example all_files_missing_ex :
  (exists printed : list string,
      generate_collection (fun _ => None) (fun _ => true)
      = Completed printed (snd (assemble [] (fun _ => None)))
      /\ List.length printed = 2 * List.length BASE_PATHS + 1)
  /\ (exists printed : list string,
         generate_collection (fun _ => None) (fun _ => false) = Raised printed
         /\ List.length printed = 2 * List.length BASE_PATHS).
Proof. split; eexists; split; vm_compute; reflexivity. Qed.

(** ** Request bodies *)

Lemma has_body_spec (m : string) :
  has_body m = true <-> In m ["POST"; "PUT"; "PATCH"].
Proof.
  unfold has_body. rewrite existsb_exists. split.
  - intros (x & Hin & Hx). apply String.eqb_eq in Hx. now subst.
  - intros Hin. exists m. split; [exact Hin|apply String.eqb_refl].
Qed.

(** C9.  In the document assembled from any mapping and any files, and
    so in the one [generate_collection] writes, a request has a body
    exactly when its method is POST, PUT or PATCH, and the body is then
    the fixed raw placeholder. *)
Theorem body_iff_post_put_patch :
  forall (fs : file_system) (mapping : list (string * string))
         (f : folder) (it : request_item),
    In f (item (snd (assemble mapping fs))) ->
    In it (folder_item f) ->
    (req_body (item_request it) <> None
     <-> In (req_method (item_request it)) ["POST"; "PUT"; "PATCH"])
    /\ (req_body (item_request it) = Some placeholder_body
        \/ req_body (item_request it) = None)
    /\ In (req_method (item_request it)) METHODS.
Proof.
  intros fs mapping f it Hf Hit.
  unfold assemble in Hf.
  destruct (process_entries fs mapping) as [out items] eqn:E.
  cbn [snd item] in Hf.
  assert (Hf' : In f (snd (process_entries fs mapping))) by now rewrite E.
  destruct (process_entries_folders _ _ _ Hf')
    as (filename & base & r0 & routes & _ & Hp & ->).
  cbn [folder_item] in Hit. apply in_map_iff in Hit as (r & <- & Hr).
  cbn [make_request_item item_request req_body req_method].
  split; [|split].
  - rewrite <- has_body_spec. destruct (has_body (method r)); split;
      congruence.
  - destruct (has_body (method r)); [now left|now right].
  - unfold parse_route_file in Hp.
    destruct (fs (Py.path_join ROUTES_DIR filename)) as [content|];
      cbn [snd] in Hp; [|discriminate].
    rewrite <- Hp in Hr. clear -Hr.
    apply (in_map route_key) in Hr.
    rewrite parse_route_text_keys in Hr.
    apply in_flat_map in Hr as (l & _ & Hl). unfold line_route in Hl.
    destruct (is_comment_line (Py.strip l)); [destruct Hl|].
    destruct (route_match (Py.strip l)) as [[g1 g2]|] eqn:Hm; [|destruct Hl].
    destruct Hl as [Hl|[]]. unfold route_key in Hl. injection Hl as <- _.
    apply upper_methods. rewrite route_match_search in Hm.
    destruct (route_search (Py.strip l)) as [[[x1 x2] x3]|] eqn:Hs;
      [|discriminate].
    injection Hm as -> ->.
    destruct (route_search_Some _ _ _ _ Hs) as (pre & suf & _ & Hat).
    now destruct (route_at_Some _ _ _ _ Hat).
Qed.

Lemma body_iff_post_put_patch_witness :
  (req_body (item_request post_item) <> None
   <-> In (req_method (item_request post_item)) ["POST"; "PUT"; "PATCH"])
  /\ (req_body (item_request post_item) = Some placeholder_body
      \/ req_body (item_request post_item) = None)
  /\ In (req_method (item_request post_item)) METHODS.
Proof.
  apply (body_iff_post_put_patch (fun _ => Some "router.post('/a', h)")
           [("x.ts", "/api/x")] (mkFolder "X" [post_item]) post_item);
    vm_compute; left; reflexivity.
Defined.

Example end_to_end_ex :
  item (snd (assemble [("x.ts", "/api/x")]
               (fun _ => Some "router.delete('/old')")))
  = [mkFolder "X"
       [mkItem "DELETE /old"
          (mkRequest "DELETE"
             [mkHeader "Content-Type" "application/json";
              mkHeader "Authorization" "Bearer {{token}}"]
             (mkUrl "{{base_url}}/api/x/old" ["{{base_url}}"]
                ["api"; "x"; "old"])
             "DELETE /api/x/old" None)
          []]].
Proof. vm_compute; reflexivity. Qed.

(** ** Characters *)

Lemma is_upper_lower_char (c : ascii) : Py.is_upper (Py.lower_char c) = false.
Proof.
  unfold Py.lower_char. destruct (Py.is_upper c) eqn:E; [|exact E].
  unfold Py.is_upper in *. apply andb_true_iff in E as [E1 E2].
  apply Nat.leb_le in E1, E2.
  rewrite nat_ascii_embedding by lia.
  apply andb_false_iff. right. apply Nat.leb_gt. lia.
Qed.

Lemma upper_char_eq (c x : ascii) :
  Py.is_upper x = false -> Py.upper_char c = x -> c = x.
Proof.
  unfold Py.upper_char. destruct (Py.is_lower c) eqn:E; [|easy].
  intros Hx H. exfalso. subst x. unfold Py.is_lower, Py.is_upper in *.
  apply andb_true_iff in E as [E1 E2]. apply Nat.leb_le in E1, E2.
  rewrite nat_ascii_embedding in Hx by lia.
  apply andb_false_iff in Hx as [Hx|Hx]; apply Nat.leb_gt in Hx; lia.
Qed.

Lemma lower_char_eq (c x : ascii) :
  Py.is_lower x = false -> Py.lower_char c = x -> c = x.
Proof.
  unfold Py.lower_char. destruct (Py.is_upper c) eqn:E; [|easy].
  intros Hx H. exfalso. subst x. unfold Py.is_lower, Py.is_upper in *.
  apply andb_true_iff in E as [E1 E2]. apply Nat.leb_le in E1, E2.
  rewrite nat_ascii_embedding in Hx by lia.
  apply andb_false_iff in Hx as [Hx|Hx]; apply Nat.leb_gt in Hx; lia.
Qed.

Lemma lower_char_fixed (c : ascii) :
  Py.lower_char c = c <-> Py.is_upper c = false.
Proof.
  split.
  - intros H. rewrite <- H. apply is_upper_lower_char.
  - intros H. unfold Py.lower_char. now rewrite H.
Qed.

Lemma no_upper_lower (s : string) : no_upper (Py.lower s) = true.
Proof.
  unfold no_upper, Py.lower.
  induction s as [|c s IH]; cbn [Py.smap Py.sforall]; [reflexivity|].
  now rewrite is_upper_lower_char, IH.
Qed.

Lemma lower_fixed (s : string) : Py.lower s = s <-> no_upper s = true.
Proof.
  unfold no_upper, Py.lower.
  induction s as [|c s IH]; cbn [Py.smap Py.sforall]; [easy|].
  rewrite andb_true_iff, negb_true_iff, <- IH, <- lower_char_fixed. split.
  - intros H. now injection H.
  - intros [-> ->]. reflexivity.
Qed.

Lemma free_of_lower (x : ascii) (s : string) :
  Py.is_lower x = false -> free_of x s = true -> free_of x (Py.lower s) = true.
Proof.
  unfold free_of, Py.lower. intros Hx.
  induction s as [|c s IH]; cbn [Py.smap Py.sforall]; [easy|].
  rewrite !andb_true_iff, !negb_true_iff. intros [Hc Hs].
  split; [|now apply IH].
  destruct (Ascii.eqb_spec x (Py.lower_char c)) as [E|]; [|reflexivity].
  symmetry in E. apply lower_char_eq in E; [|exact Hx].
  subst. now rewrite Ascii.eqb_refl in Hc.
Qed.

Lemma contains_char (x : ascii) (s : string) :
  Py.contains (String x "") s = negb (free_of x s).
Proof.
  unfold free_of.
  induction s as [|c s IH]; [reflexivity|].
  cbn [Py.contains Py.sforall]. rewrite prefix_cons, IH, prefix_empty.
  now destruct (Ascii.eqb x c).
Qed.

(** ** Replacement *)

(** Replacing one character by nothing leaves no occurrence of it. *)
Lemma replace_char_free (x : ascii) (s : string) :
  free_of x (Py.replace s (String x "") "") = true.
Proof.
  unfold Py.replace, free_of. induction s as [|c s IH]; [reflexivity|].
  cbn [Py.replace_from]. rewrite prefix_cons, prefix_empty, andb_true_r.
  change (String.length (String x "") - 1) with 0.
  destruct (Ascii.eqb x c) eqn:E; [exact IH|].
  cbn [Py.sforall]. now rewrite E, IH.
Qed.

(** ** Folder names *)

Lemma lower_upper_char (c : ascii) :
  Py.lower_char (Py.upper_char c) = Py.lower_char c.
Proof.
  unfold Py.upper_char. destruct (Py.is_lower c) eqn:E; [|reflexivity].
  unfold Py.lower_char, Py.is_lower, Py.is_upper in *.
  apply andb_true_iff in E as [E1 E2]. apply Nat.leb_le in E1, E2.
  rewrite nat_ascii_embedding by lia.
  replace (65 <=? nat_of_ascii c - 32) with true
    by (symmetry; apply Nat.leb_le; lia).
  replace (nat_of_ascii c - 32 <=? 90) with true
    by (symmetry; apply Nat.leb_le; lia).
  replace (65 <=? nat_of_ascii c) with true
    by (symmetry; apply Nat.leb_le; lia).
  replace (nat_of_ascii c <=? 90) with false
    by (symmetry; apply Nat.leb_gt; lia).
  cbn [andb]. replace (nat_of_ascii c - 32 + 32) with (nat_of_ascii c) by lia.
  apply ascii_nat_embedding.
Qed.

Lemma lower_idem (s : string) : Py.lower (Py.lower s) = Py.lower s.
Proof. apply lower_fixed, no_upper_lower. Qed.

Lemma assemble_items (mapping : list (string * string)) (fs : file_system) :
  item (snd (assemble mapping fs)) = snd (process_entries fs mapping).
Proof. unfold assemble. now destruct (process_entries fs mapping). Qed.

(** What [capitalize] makes of a text from which the slashes are gone. *)
Lemma capitalize_facts (t : string) :
  free_of "/"%char t = true ->
  Py.contains "/" (Py.capitalize t) = false
  /\ no_upper (tail (Py.capitalize t)) = true
  /\ Py.lower (Py.capitalize t) = Py.lower t
  /\ (Py.capitalize t = Spec.capitalize_first t <-> no_upper (tail t) = true).
Proof.
  intros Hfree. destruct t as [|c t]; [now repeat split|].
  cbn [Py.capitalize tail Spec.capitalize_first].
  unfold free_of in Hfree. cbn [Py.sforall] in Hfree.
  apply andb_true_iff in Hfree as [Hc Ht]. apply negb_true_iff in Hc.
  split; [|split; [|split]].
  - rewrite contains_char. apply negb_false_iff.
    unfold free_of. cbn [Py.sforall]. apply andb_true_iff. split.
    + apply negb_true_iff.
      destruct (Ascii.eqb_spec "/"%char (Py.upper_char c)) as [E|];
        [|reflexivity].
      symmetry in E. apply upper_char_eq in E; [|reflexivity].
      subst c. discriminate Hc.
    + now apply free_of_lower.
  - apply no_upper_lower.
  - unfold Py.lower. cbn [Py.smap]. fold (Py.lower t) (Py.lower (Py.lower t)).
    now rewrite lower_upper_char, lower_idem.
  - rewrite <- lower_fixed. split; [intros H; now injection H|now intros ->].
Qed.

(** C2, counterexample.  For the mapping entry
    [car.ts -> /api/carImport] the claim gives the folder the name
    [CarImport]; the document has [Carimport]. *)
Lemma folder_name_rest_not_kept :
  map folder_name
    (item (snd (assemble [("car.ts", "/api/carImport")]
                  (fun _ => Some "router.get('/a', h)"))))
  = ["Carimport"]
  /\ Spec.folder_name "/api/carImport" = "CarImport".
Proof. split; vm_compute; reflexivity. Qed.

(** C2, amended.  For every mapping entry that yields a folder, the
    folder's name is the base path with every occurrence of [/api/] and
    then every remaining slash removed, with the first character
    upper-cased and the rest lower-cased ([str.capitalize]): it holds no
    slash, no uppercase letter after its first character, and the letters
    of the stripped base path up to case.  It is the name with the rest
    in its original case exactly when that rest has no uppercase letter,
    which is so for every base path of [BASE_PATHS]. *)
Theorem folder_name_rest_lowercased :
  (forall (fs : file_system) (mapping : list (string * string)) (f : folder),
      (forall e, In e mapping -> Py.is_ascii (snd e) = true) ->
      In f (item (snd (assemble mapping fs))) ->
      exists filename base : string,
        In (filename, base) mapping
        /\ let stripped := Py.replace (Py.replace base "/api/" "") "/" "" in
           folder_name f = Py.capitalize stripped
           /\ Py.contains "/" (folder_name f) = false
           /\ no_upper (tail (folder_name f)) = true
           /\ Py.lower (folder_name f) = Py.lower stripped
           /\ (folder_name f = Spec.capitalize_first stripped
               <-> no_upper (tail stripped) = true))
  /\ Forall (fun e => folder_name_of (snd e) = Spec.folder_name (snd e))
       BASE_PATHS.
Proof.
  split.
  - intros fs mapping f _ Hf. rewrite assemble_items in Hf.
    destruct (process_entries_folders _ _ _ Hf)
      as (filename & base & r & routes & Hin & _ & ->).
    exists filename, base. split; [exact Hin|].
    cbn [folder_name]. unfold folder_name_of.
    split; [reflexivity|].
    apply (capitalize_facts _ (replace_char_free "/"%char _)).
  - repeat constructor.
Qed.

Lemma folder_name_rest_lowercased_witness :
  exists filename base : string,
    In (filename, base) [("car.ts", "/api/carImport")]
    /\ let stripped := Py.replace (Py.replace base "/api/" "") "/" "" in
       "Carimport" = Py.capitalize stripped
       /\ Py.contains "/" "Carimport" = false
       /\ no_upper (tail "Carimport") = true
       /\ Py.lower "Carimport" = Py.lower stripped
       /\ ("Carimport" = Spec.capitalize_first stripped
           <-> no_upper (tail stripped) = true).
Proof.
  apply (proj1 folder_name_rest_lowercased
           (fun _ => Some "router.get('/a', h)")
           [("car.ts", "/api/carImport")]
           (mkFolder "Carimport"
              (map make_request_item
                 (parse_route_text "/api/carImport" "router.get('/a', h)")))).
  - intros e [<-|[]]. reflexivity.
  - vm_compute. left. reflexivity.
Defined.

(** ** Cleaning a comment line *)

Lemma sforall_replace_del (p : ascii -> bool) (old : string) (k : nat)
  (s : string) :
  Py.sforall p s = true -> Py.sforall p (Py.replace_from old "" k s) = true.
Proof.
  revert k. induction s as [|c s IH]; intros k H; [reflexivity|].
  cbn [Py.sforall] in H. apply andb_true_iff in H as [Hc Hs].
  cbn [Py.replace_from]. destruct k as [|k]; [|now apply IH].
  destruct (String.prefix old (String c s)).
  - cbn [append]. now apply IH.
  - cbn [Py.sforall]. rewrite Hc. now apply IH.
Qed.

Lemma sforall_lstrip (p : ascii -> bool) (s : string) :
  Py.sforall p s = true -> Py.sforall p (Py.lstrip s) = true.
Proof.
  induction s as [|c s IH]; [easy|]. cbn [Py.lstrip].
  destruct (Py.isspace c); [|easy].
  cbn [Py.sforall]. intros H. apply andb_true_iff in H as [_ H]. now apply IH.
Qed.

Lemma sforall_rstrip (p : ascii -> bool) (s : string) :
  Py.sforall p s = true -> Py.sforall p (Py.rstrip s) = true.
Proof.
  induction s as [|c s IH]; [easy|]. cbn [Py.rstrip Py.sforall].
  intros H. apply andb_true_iff in H as [Hc Hs]. specialize (IH Hs).
  destruct (Py.rstrip s) as [|a r].
  - destruct (Py.isspace c); [reflexivity|]. cbn [Py.sforall]. now rewrite Hc.
  - cbn [Py.sforall] in *. now rewrite Hc, IH.
Qed.

Lemma sforall_strip (p : ascii -> bool) (s : string) :
  Py.sforall p s = true -> Py.sforall p (Py.strip s) = true.
Proof. intros H. now apply sforall_rstrip, sforall_lstrip. Qed.

Lemma prefix_one (x : ascii) (s : string) :
  String.prefix (String x "") s =
  match s with String d _ => Ascii.eqb x d | EmptyString => false end.
Proof.
  destruct s as [|d s]; [reflexivity|].
  now rewrite prefix_cons, prefix_empty, andb_true_r.
Qed.

(** After [replace(xx, '')] a text that did not start with [x] still
    does not. *)
Lemma replace_pair_head (x : ascii) (s : string) :
  String.prefix (String x "") s = false ->
  String.prefix (String x "")
    (Py.replace_from (String x (String x "")) "" 0 s) = false.
Proof.
  rewrite !prefix_one. destruct s as [|d s]; [reflexivity|].
  intros Hd. cbn [Py.replace_from]. rewrite prefix_cons, Hd. exact Hd.
Qed.

Lemma replace_pair_free_from (x : ascii) (s : string) :
  Py.contains (String x (String x ""))
    (Py.replace_from (String x (String x "")) "" 0 s) = false
  /\ Py.contains (String x (String x ""))
       (Py.replace_from (String x (String x "")) "" 1 s) = false.
Proof.
  induction s as [|c s [IH0 IH1]]; [split; reflexivity|].
  split; [|exact IH0].
  cbn [Py.replace_from].
  destruct (String.prefix (String x (String x "")) (String c s)) eqn:E.
  - exact IH1.
  - cbn [Py.contains]. rewrite IH0, orb_false_r, prefix_cons.
    rewrite prefix_cons in E.
    destruct (Ascii.eqb x c); [|reflexivity].
    cbn [andb] in *. now apply replace_pair_head.
Qed.

(** Replacing a doubled character by nothing leaves no doubled
    occurrence of it. *)
Lemma replace_pair_free (x : ascii) (s : string) :
  Py.contains (String x (String x ""))
    (Py.replace s (String x (String x "")) "") = false.
Proof. apply replace_pair_free_from. Qed.

Lemma prefix_app_r (sub a w : string) :
  String.prefix sub a = true -> String.prefix sub (a ++ w) = true.
Proof.
  rewrite !prefix_strip_prefix.
  destruct (strip_prefix sub a) as [r|] eqn:E; [|discriminate].
  apply strip_prefix_Some in E. subst a. intros _.
  now rewrite app_assoc_s, strip_prefix_app.
Qed.

Lemma contains_app_r (sub a w : string) :
  Py.contains sub a = true -> Py.contains sub (a ++ w) = true.
Proof.
  induction a as [|c a IH]; cbn [Py.contains]; intros H;
    apply orb_true_iff in H as [H|H].
  - destruct sub; [|discriminate]. destruct w; cbn [Py.contains append];
      now rewrite prefix_empty.
  - discriminate.
  - change (String c a ++ w) with (String c (a ++ w)). cbn [Py.contains].
    change (String c (a ++ w)) with (String c a ++ w).
    now rewrite (prefix_app_r _ _ w H).
  - change (String c a ++ w) with (String c (a ++ w)). cbn [Py.contains].
    rewrite (IH H). apply orb_true_r.
Qed.

Lemma rstrip_prefix (s : string) : exists w, s = Py.rstrip s ++ w.
Proof.
  induction s as [|c s [w IH]]; [now exists ""|].
  cbn [Py.rstrip]. destruct (Py.rstrip s) as [|a r].
  - destruct (Py.isspace c); [now exists (String c s)|].
    exists s. reflexivity.
  - exists w. cbn [append]. f_equal. exact IH.
Qed.

Lemma contains_lstrip (sub s : string) :
  Py.contains sub (Py.lstrip s) = true -> Py.contains sub s = true.
Proof.
  induction s as [|c s IH]; [easy|]. cbn [Py.lstrip].
  destruct (Py.isspace c); [|easy].
  intros H. cbn [Py.contains]. rewrite (IH H). apply orb_true_r.
Qed.

(** Trimming brings in no occurrence of a text. *)
Lemma contains_strip (sub s : string) :
  Py.contains sub s = false -> Py.contains sub (Py.strip s) = false.
Proof.
  intros H. destruct (Py.contains sub (Py.strip s)) eqn:E; [|reflexivity].
  unfold Py.strip in E. destruct (rstrip_prefix (Py.lstrip s)) as [w Hw].
  apply (contains_app_r _ _ w) in E. rewrite <- Hw in E.
  apply contains_lstrip in E. congruence.
Qed.

Lemma replace_absent (x : ascii) (old new s : string) :
  free_of x s = true -> Py.replace s (String x old) new = s.
Proof.
  unfold Py.replace, free_of. induction s as [|c s IH]; [reflexivity|].
  cbn [Py.sforall Py.replace_from]. intros H.
  apply andb_true_iff in H as [Hc Hs]. apply negb_true_iff in Hc.
  rewrite prefix_cons, Hc. cbn [andb]. now rewrite IH.
Qed.

Lemma replace_skip (old new a t : string) :
  Py.replace_from old new (String.length a) (a ++ t)
  = Py.replace_from old new 0 t.
Proof.
  induction a as [|c a IH]; [reflexivity|].
  cbn [String.length append Py.replace_from]. exact IH.
Qed.

(** An occurrence at the start is replaced and the scan goes on behind
    it. *)
Lemma replace_at_start (c : ascii) (old new t : string) :
  Py.replace (String c old ++ t) (String c old) new
  = new ++ Py.replace t (String c old) new.
Proof.
  unfold Py.replace. cbn [append Py.replace_from].
  change (String c (old ++ t)) with (String c old ++ t).
  rewrite prefix_strip_prefix, strip_prefix_app.
  replace (String.length (String c old) - 1) with (String.length old)
    by (cbn [String.length]; lia).
  now rewrite replace_skip.
Qed.

Lemma prefix_absent (x : ascii) (p t : string) :
  free_of x t = true -> String.prefix (String x p) t = false.
Proof.
  destruct t as [|d t]; [reflexivity|]. unfold free_of. cbn [Py.sforall].
  intros H. apply andb_true_iff in H as [H _]. apply negb_true_iff in H.
  now rewrite prefix_cons, H.
Qed.

Lemma plain_text_spec (t : string) :
  plain_text t = true -> free_of "*"%char t = true /\ free_of "/"%char t = true.
Proof. unfold plain_text. now rewrite andb_true_iff. Qed.

Lemma clean_comment_plain (t : string) :
  plain_text t = true ->
  Py.strip
    (Py.replace (Py.replace (Py.replace (Py.replace t "/**" "") "*/" "")
                   "*" "") "//" "")
  = Py.strip t.
Proof.
  intros H. destruct (plain_text_spec t H) as [Hs Hd].
  rewrite (replace_absent "/"%char "**" "" t Hd).
  rewrite (replace_absent "*"%char "/" "" t Hs).
  rewrite (replace_absent "*"%char "" "" t Hs).
  now rewrite (replace_absent "/"%char "/" "" t Hd).
Qed.

Lemma clean_comment_open (t : string) :
  plain_text t = true -> clean_comment ("/**" ++ t) = Py.strip t.
Proof.
  intros H. unfold clean_comment.
  rewrite replace_at_start. cbn [append].
  now apply clean_comment_plain.
Qed.

Lemma clean_comment_star (t : string) :
  plain_text t = true -> clean_comment ("*" ++ t) = Py.strip t.
Proof.
  intros H. destruct (plain_text_spec t H) as [Hs Hd]. unfold clean_comment.
  assert (E1 : Py.replace ("*" ++ t) "/**" "" = "*" ++ t).
  { apply replace_absent. unfold free_of in *. cbn. exact Hd. }
  assert (E2 : Py.replace ("*" ++ t) "*/" "" = "*" ++ t).
  { unfold Py.replace. cbn [append Py.replace_from].
    rewrite prefix_cons, (prefix_absent "/"%char "" t Hd), andb_false_r.
    f_equal. now apply replace_absent. }
  rewrite E1, E2, replace_at_start. cbn [append].
  rewrite (replace_absent "*"%char "" "" t Hs).
  now rewrite (replace_absent "/"%char "/" "" t Hd).
Qed.

Lemma clean_comment_slashes (t : string) :
  plain_text t = true -> clean_comment ("//" ++ t) = Py.strip t.
Proof.
  intros H. destruct (plain_text_spec t H) as [Hs Hd]. unfold clean_comment.
  assert (Hs' : free_of "*"%char ("//" ++ t) = true).
  { unfold free_of in *. cbn. exact Hs. }
  assert (E1 : Py.replace ("//" ++ t) "/**" "" = "//" ++ t).
  { unfold Py.replace. cbn [append Py.replace_from].
    rewrite !prefix_cons, (prefix_absent "*"%char "*" t Hs).
    rewrite !andb_false_r. do 2 f_equal. now apply replace_absent. }
  rewrite E1.
  rewrite (replace_absent "*"%char "/" "" _ Hs').
  rewrite (replace_absent "*"%char "" "" _ Hs').
  rewrite replace_at_start. cbn [append].
  now rewrite (replace_absent "/"%char "/" "" t Hd).
Qed.

(** C4, counterexample.  In [// see http://x.com/a*b] only the leading
    double slash is a marker; the claim keeps the rest as it is, and the
    buffer receives the text without its inner double slash and star. *)
Lemma inner_markers_not_preserved :
  snd (scan_line "/api/x" ([], []) "// see http://x.com/a*b")
  = ["see http:x.com/ab"]
  /\ Spec.clean_comment "// see http://x.com/a*b" = "see http://x.com/a*b".
Proof. split; vm_compute; reflexivity. Qed.

(** C4, amended.  For every comment line the markers are removed
    wherever they stand in the line, not only at its start: every
    occurrence of the block-open marker, then of the block-close marker,
    then every star, then every double slash, and the result is trimmed.
    The buffered string therefore holds no star and no double slash; a
    text after the leading marker that has no star and no slash is
    buffered trimmed and otherwise unchanged. *)
Theorem comment_markers_removed_everywhere :
  forall (base : string) (routes : list route) (buf : list string)
         (line : string),
    is_comment_line (Py.strip line) = true ->
    exists (kept : list string) (b : string),
      (kept = buf \/ kept = [])
      /\ b = clean_comment (Py.strip line)
      /\ snd (scan_line base (routes, buf) line)
         = (if String.eqb b "" then kept else kept ++ [b])%list
      /\ Py.contains "*" b = false
      /\ Py.contains "//" b = false
      /\ forall marker t : string,
           In marker ["/**"; "*"; "//"] ->
           Py.strip line = marker ++ t ->
           plain_text t = true ->
           b = Py.strip t.
Proof.
  intros base routes buf line Hc.
  exists (if Py.startswith (Py.strip line) "/**" then [] else buf),
         (clean_comment (Py.strip line)).
  split; [destruct (Py.startswith _ _); auto|].
  split; [reflexivity|].
  split.
  { unfold scan_line. rewrite Hc.
    now destruct (String.eqb (clean_comment (Py.strip line)) ""). }
  split.
  { rewrite contains_char. apply negb_false_iff. unfold clean_comment.
    apply sforall_strip. unfold Py.replace at 1.
    apply sforall_replace_del. apply replace_char_free. }
  split.
  { unfold clean_comment. apply contains_strip. apply replace_pair_free. }
  intros marker t Hin Hline Ht. rewrite Hline.
  destruct Hin as [<-|[<-|[<-|[]]]].
  - now apply clean_comment_open.
  - now apply clean_comment_star.
  - now apply clean_comment_slashes.
Qed.

Lemma comment_markers_removed_everywhere_witness :
  exists (kept : list string) (b : string),
    (kept = ["old"] \/ kept = [])
    /\ b = clean_comment (Py.strip "  * @desc Fetch a*b // c  ")
    /\ snd (scan_line "/api/x" ([], ["old"]) "  * @desc Fetch a*b // c  ")
       = (if String.eqb b "" then kept else kept ++ [b])%list
    /\ Py.contains "*" b = false
    /\ Py.contains "//" b = false
    /\ forall marker t : string,
         In marker ["/**"; "*"; "//"] ->
         Py.strip "  * @desc Fetch a*b // c  " = marker ++ t ->
         plain_text t = true ->
         b = Py.strip t.
Proof.
  apply (comment_markers_removed_everywhere "/api/x" [] ["old"]
           "  * @desc Fetch a*b // c  ").
  reflexivity.
Defined.

(** ** Description and name *)

Lemma build_route_name (base : string) (buf : list string) (g1 g2 : string) :
  name (build_route base buf g1 g2)
  = snd (fold_left describe_step buf ("", Py.upper g1 ++ " " ++ g2)).
Proof. open_build_route. Qed.

Lemma build_route_description (base : string) (buf : list string)
  (g1 g2 : string) :
  description (build_route base buf g1 g2)
  = let d := fst (fold_left describe_step buf ("", Py.upper g1 ++ " " ++ g2)) in
    if String.eqb d "" then Py.upper g1 ++ " " ++ full_path_of base g2 else d.
Proof. open_build_route. Qed.

(** Over lines without the [@desc] tag the name stays, and an empty
    description is set once, by the first line that has neither an
    [@route] nor an [@access] tag. *)
Lemma describe_fold_no_desc (buf : list string) (d n : string) :
  Forall (fun c => c <> "") buf ->
  (forall c, In c buf -> Py.contains "@desc" c = false) ->
  fold_left describe_step buf (d, n)
  = (if String.eqb d ""
     then match find is_plain buf with Some c => c | None => "" end
     else d, n).
Proof.
  revert d. induction buf as [|c buf IH]; intros d Hne Hno.
  - cbn [fold_left find]. now destruct (String.eqb_spec d "") as [->|].
  - apply Forall_cons_iff in Hne as [Hc Hne].
    cbn [fold_left find]. unfold describe_step at 2.
    rewrite (Hno c (or_introl eq_refl)). fold (is_plain c).
    assert (Hno' : forall c', In c' buf -> Py.contains "@desc" c' = false)
      by (intros c' Hc'; apply Hno; now right).
    destruct (is_plain c).
    + destruct (String.eqb_spec d "") as [->|Hd].
      * rewrite (IH c Hne Hno').
        apply String.eqb_neq in Hc. now rewrite Hc.
      * rewrite (IH d Hne Hno').
        apply String.eqb_neq in Hd. now rewrite Hd.
    + now rewrite (IH d Hne Hno').
Qed.

Lemma scan_line_buffer (base : string) (routes : list route)
  (buf : list string) (line : string) :
  Forall (fun c => c <> "") buf ->
  Forall (fun c => c <> "") (snd (scan_line base (routes, buf) line)).
Proof.
  intros H. unfold scan_line.
  destruct (is_comment_line (Py.strip line)).
  - assert (Hk : Forall (fun c : string => c <> "")
                   (if Py.startswith (Py.strip line) "/**" then [] else buf))
      by (destruct (Py.startswith _ _); [constructor|exact H]).
    destruct (String.eqb_spec (clean_comment (Py.strip line)) "") as [E|E];
      cbn [negb snd]; [exact Hk|].
    apply Forall_app. split; [exact Hk|]. now repeat constructor.
  - destruct (route_match (Py.strip line)) as [[g1 g2]|]; [constructor|].
    destruct (String.eqb (Py.strip (Py.strip line)) ""); [exact H|].
    destruct (negb (Py.startswith (Py.strip line) "router."));
      [constructor|exact H].
Qed.

(** The buffer never holds an empty string. *)
Lemma scan_after_buffer (base : string) (before : list string) :
  Forall (fun c => c <> "") (snd (scan_after base before)).
Proof.
  unfold scan_after.
  assert (H : forall st : scan_state,
             Forall (fun c => c <> "") (snd st) ->
             Forall (fun c => c <> "")
               (snd (fold_left (scan_line base) before st))).
  { induction before as [|l before IH]; intros [routes buf] Hst;
      cbn [fold_left]; [exact Hst|].
    apply IH.
    pose proof (scan_line_buffer base routes buf l Hst) as Hl.
    now destruct (scan_line base (routes, buf) l). }
  apply H. constructor.
Qed.

Example documentation_attachment_ex :
  parse_route_text "/api/foo"
    (text_of_lines ["/**"; " * @route GET /api/foo/:id";
                    " * @desc Fetch a foo by id"; " */";
                    "router.get('/:id', handler)"])
  = [mkRoute "Fetch a foo by id" "GET" "/api/foo/:id" "Fetch a foo by id"].
Proof. vm_compute; reflexivity. Qed.

Example fallback_description_ex :
  parse_route_text "/api/x" "router.delete('/old')"
  = [mkRoute "DELETE /old" "DELETE" "/api/x/old" "DELETE /api/x/old"].
Proof. vm_compute; reflexivity. Qed.

Example empty_desc_tag_ex :
  parse_route_text "/api/x" (text_of_lines ["// @desc"; "router.get('/a', h)"])
  = [mkRoute "" "GET" "/api/x/a" "GET /api/x/a"].
Proof. vm_compute; reflexivity. Qed.

(** C3, counterexample.  After the comment block whose one text line is
    [* see @desc Fetch] the buffer is [see @desc Fetch]; the claim makes
    the text following the marker, [Fetch], both description and name,
    and the record has the whole line without the marker for both. *)
Lemma desc_keeps_text_before_marker :
  snd (scan_after "/api/x" ["/**"; " * see @desc Fetch"; " */"])
  = ["see @desc Fetch"]
  /\ map (fun r => (description r, name r))
       (parse_route_text "/api/x"
          (text_of_lines ["/**"; " * see @desc Fetch"; " */";
                          "router.get('/a', h)"]))
     = [("see  Fetch", "see  Fetch")]
  /\ Spec.describe ["see @desc Fetch"] "GET" "/a" "/api/x/a"
     = ("Fetch", "Fetch").
Proof. repeat split; vm_compute; reflexivity. Qed.

(** C3, amended.  For every recognized route declaration, with [buf] the
    buffer at that line: if no buffered line contains the [@desc] marker,
    the name is [method sub-path] and the description is the first
    buffered line containing neither [@route] nor [@access], or
    [method full_path] when there is none; if some buffered line contains
    the marker, the last such line with every occurrence of the marker
    removed (the text before the marker is kept) and then trimmed becomes
    the name, and the description too when it is not empty. *)
Theorem description_from_buffer :
  forall (base : string) (before : list string) (line g1 g2 : string),
    is_comment_line (Py.strip line) = false ->
    route_match (Py.strip line) = Some (g1, g2) ->
    let routes := fst (scan_after base before) in
    let buf := snd (scan_after base before) in
    exists r : route,
      scan_line base (scan_after base before) line = ((routes ++ [r])%list, [])
      /\ ((forall c, In c buf -> Py.contains "@desc" c = false) ->
          name r = Py.upper g1 ++ " " ++ g2
          /\ description r
             = match find is_plain buf with
               | Some c => c
               | None => Py.upper g1 ++ " " ++ full_path_of base g2
               end)
      /\ (forall (pre : list string) (c : string) (post : list string),
            buf = (pre ++ c :: post)%list ->
            Py.contains "@desc" c = true ->
            (forall c', In c' post -> Py.contains "@desc" c' = false) ->
            let d := Py.strip (Py.replace c "@desc" "") in
            name r = d /\ (d <> "" -> description r = d)).
Proof.
  intros base before line g1 g2 Hc Hm routes buf.
  pose proof (scan_after_buffer base before) as Hne. fold buf in Hne.
  exists (build_route base buf g1 g2). split.
  { rewrite <- (scan_line_route base routes buf line g1 g2 Hc Hm).
    unfold routes, buf. now destruct (scan_after base before). }
  rewrite build_route_name, build_route_description. split.
  - intros Hno. rewrite (describe_fold_no_desc buf _ _ Hne Hno).
    cbn [fst snd String.eqb]. split; [reflexivity|].
    destruct (find is_plain buf) as [c|] eqn:E; [|reflexivity].
    apply find_some in E as [Hin _].
    rewrite Forall_forall in Hne. specialize (Hne c Hin).
    apply String.eqb_neq in Hne. now rewrite Hne.
  - intros pre c post Hbuf Hdesc Hno d.
    rewrite Hbuf, fold_left_app. cbn [fold_left].
    assert (Hstep : forall st, describe_step st c = (d, d)).
    { intros [d0 n0]. unfold describe_step. now rewrite Hdesc. }
    rewrite Hstep.
    rewrite Hbuf in Hne. apply Forall_app in Hne as [_ Hne].
    apply Forall_cons_iff in Hne as [_ Hne].
    rewrite (describe_fold_no_desc post d d Hne Hno). cbn [fst snd].
    split; [reflexivity|].
    intros Hd. apply String.eqb_neq in Hd. now rewrite !Hd.
Qed.

Lemma description_from_buffer_witness :
  exists r : route,
    scan_line "/api/foo"
      (scan_after "/api/foo"
         ["/**"; " * Get one"; " * @desc Fetch a foo @desc by id"; " */"])
      "router.get('/:id', handler)"
    = ([r], [])
    /\ name r = "Fetch a foo  by id"
    /\ description r = "Fetch a foo  by id".
Proof.
  destruct (description_from_buffer "/api/foo"
              ["/**"; " * Get one"; " * @desc Fetch a foo @desc by id"; " */"]
              "router.get('/:id', handler)" "get" "/:id" eq_refl eq_refl)
    as (r & Hr & _ & Hdesc).
  exists r. split; [exact Hr|].
  destruct (Hdesc ["Get one"] "@desc Fetch a foo @desc by id" []
              eq_refl eq_refl) as [Hn Hd].
  - intros c' [].
  - split; [exact Hn|]. apply Hd. discriminate.
Defined.

(** * Further properties of the script *)

(** ** What a match consists of *)

Lemma sforall_false_app_r (p : ascii -> bool) (a b : string) :
  Py.sforall p b = false -> Py.sforall p (a ++ b) = false.
Proof.
  intros H. induction a as [|c a IH]; cbn [append Py.sforall]; [exact H|].
  rewrite IH. apply andb_false_r.
Qed.

Lemma route_match_Some (s g1 g2 : string) :
  route_match s = Some (g1, g2) ->
  In g1 methods /\ Py.sforall not_quote g2 = true
  /\ Py.contains "router." s = true
  /\ Py.sforall not_quote s = false.
Proof.
  rewrite route_match_search.
  destruct (route_search s) as [[[x1 x2] rest]|] eqn:Hs; [|discriminate].
  intros H. injection H as -> ->.
  destruct (route_search_Some _ _ _ _ Hs) as (pre & suf & -> & Hat).
  destruct (route_at_Some _ _ _ _ Hat)
    as (Hg1 & Hg2 & w1 & w2 & q1 & q2 & -> & _ & _ & Hq1 & _).
  split; [exact Hg1|]. split; [exact Hg2|]. split.
  - apply contains_app.
  - do 4 apply sforall_false_app_r.
    cbn [Py.sforall]. apply andb_false_iff. right.
    apply sforall_false_app_r. cbn [Py.sforall].
    unfold not_quote at 1. now rewrite Hq1.
Qed.

(** ** Every record of a file *)

Lemma scan_line_records (base : string) (routes : list route)
  (buf : list string) (line : string) (r : route) :
  In r (fst (scan_line base (routes, buf) line)) ->
  In r routes
  \/ exists g1 g2 : string,
       route_match (Py.strip line) = Some (g1, g2)
       /\ r = build_route base buf g1 g2.
Proof.
  destruct (is_comment_line (Py.strip line)) eqn:Hc.
  - rewrite scan_line_comment by exact Hc. now left.
  - destruct (route_match (Py.strip line)) as [[g1 g2]|] eqn:Hm.
    + rewrite (scan_line_route _ _ _ _ _ _ Hc Hm). cbn [fst].
      intros H. apply in_app_or in H as [H|[<-|[]]]; [now left|].
      right. now exists g1, g2.
    + unfold scan_line. rewrite Hc, Hm.
      destruct (String.eqb (Py.strip (Py.strip line)) ""); [now left|].
      destruct (negb (Py.startswith (Py.strip line) "router.")); now left.
Qed.

Lemma scan_fold_records (base : string) (lines : list string)
  (st : scan_state) (r : route) :
  In r (fst (fold_left (scan_line base) lines st)) ->
  In r (fst st)
  \/ exists (buf : list string) (g1 g2 l : string),
       In l lines /\ route_match (Py.strip l) = Some (g1, g2)
       /\ r = build_route base buf g1 g2.
Proof.
  revert st. induction lines as [|l lines IH]; intros [routes buf];
    cbn [fold_left]; [now left|].
  intros H. apply IH in H as [H|(b & g1 & g2 & l' & Hin & Hm & Hr)].
  - pose proof (scan_line_records base routes buf l r) as Hl.
    destruct (scan_line base (routes, buf) l) as [routes' buf'].
    cbn [fst] in *. destruct (Hl H) as [Hold|(g1 & g2 & Hm & Hr)];
      [now left|].
    right. exists buf, g1, g2, l. split; [now left|now split].
  - right. exists b, g1, g2, l'. split; [now right|now split].
Qed.

Lemma build_route_description_nonempty (base : string) (buf : list string)
  (g1 g2 : string) :
  description (build_route base buf g1 g2) <> "".
Proof.
  rewrite build_route_description. cbv zeta.
  destruct (String.eqb_spec
              (fst (fold_left describe_step buf ("", Py.upper g1 ++ " " ++ g2)))
              "") as [_|Hd]; [|exact Hd].
  destruct (Py.upper g1); discriminate.
Qed.

(** X1.  Every record extracted from a file has one of the five
    uppercase methods, a description that is not empty, and a path that
    is the normalized concatenation of the base path with a sub-path
    free of quote characters. *)
Theorem record_invariants :
  forall (base text : string) (r : route),
    In r (parse_route_text base text) ->
    In (method r) METHODS
    /\ description r <> ""
    /\ exists sub : string,
         Py.sforall not_quote sub = true /\ path r = full_path_of base sub.
Proof.
  intros base text r H. unfold parse_route_text in H.
  apply scan_fold_records in H as [[]|(buf & g1 & g2 & l & _ & Hm & ->)].
  destruct (route_match_Some _ _ _ Hm) as (Hg1 & Hg2 & _).
  rewrite build_route_method, build_route_path.
  split; [now apply upper_methods|].
  split; [apply build_route_description_nonempty|].
  now exists g2.
Qed.

Lemma record_invariants_witness :
  In (method (mkRoute "" "GET" "/api/x/a" "GET /api/x/a")) METHODS
  /\ description (mkRoute "" "GET" "/api/x/a" "GET /api/x/a") <> ""
  /\ exists sub : string,
       Py.sforall not_quote sub = true
       /\ path (mkRoute "" "GET" "/api/x/a" "GET /api/x/a")
          = full_path_of "/api/x" sub.
Proof.
  apply (record_invariants "/api/x"
           (text_of_lines ["// @desc"; "router.get('/a', h)"])).
  vm_compute. left. reflexivity.
Defined.

(** ** Normalizing the path *)

Lemma app_nil_r_s (a : string) : a ++ "" = a.
Proof. induction a; cbn [append]; congruence. Qed.

Lemma endswith_drop_last (s : string) (c : ascii) :
  Py.endswith s (String c "") = true -> s = Py.drop_last s ++ String c "".
Proof.
  intros H. destruct (endswith_split _ _ H) as [q ->].
  now rewrite drop_last_app.
Qed.

(** X2.  The path is the concatenation of base path and sub-path with at
    most one trailing slash taken off: a non-empty concatenation never
    becomes empty, the base path stays in front whenever the sub-path is
    not empty or the base path does not end in a slash, and of two
    trailing slashes one is left. *)
Theorem full_path_one_slash :
  forall base sub : string,
    (full_path_of base sub = base ++ sub
     \/ base ++ sub = full_path_of base sub ++ "/")
    /\ (base ++ sub <> "" -> full_path_of base sub <> "")
    /\ (sub <> "" \/ Py.endswith base "/" = false ->
        Py.startswith (full_path_of base sub) base = true)
    /\ full_path_of base (sub ++ "//") = base ++ sub ++ "/".
Proof.
  intros base sub. split; [|split; [|split]].
  - unfold full_path_of.
    destruct (Py.endswith (base ++ sub) "/") eqn:E; [|now left].
    destruct (1 <? String.length (base ++ sub)); [|now left].
    right. now apply endswith_drop_last.
  - unfold full_path_of. intros Hne.
    destruct (Py.endswith (base ++ sub) "/") eqn:E; [|exact Hne].
    destruct (1 <? String.length (base ++ sub)) eqn:L; [|exact Hne].
    apply Nat.ltb_lt in L. destruct (endswith_split _ _ E) as [q Hq].
    rewrite Hq, drop_last_app. rewrite Hq, slength_app in L. cbn in L.
    destruct q; [cbn in L; lia|discriminate].
  - intros H. unfold Py.startswith. rewrite prefix_strip_prefix.
    unfold full_path_of.
    destruct (Py.endswith (base ++ sub) "/") eqn:E; cbn [andb];
      [|now rewrite strip_prefix_app].
    destruct (1 <? String.length (base ++ sub)) eqn:L;
      [|now rewrite strip_prefix_app].
    destruct (endswith_split _ _ E) as [q Hq].
    assert (Hsub : sub <> "").
    { destruct H as [H|H]; [exact H|]. intros ->.
      rewrite app_nil_r_s in E. congruence. }
    assert (Hs : exists t, sub = t ++ "/").
    { clear -Hq Hsub. revert q Hq.
      induction base as [|c base IH]; intros q Hq; cbn [append] in Hq.
      - now exists q.
      - destruct q as [|d q]; cbn [append] in Hq.
        + injection Hq as _ Hq. destruct base; [|discriminate].
          cbn in Hq. congruence.
        + injection Hq as _ Hq. now apply (IH q). }
    destruct Hs as [t ->].
    rewrite <- app_assoc_s, drop_last_app. now rewrite strip_prefix_app.
  - unfold full_path_of.
    replace (base ++ sub ++ "//") with ((base ++ sub ++ "/") ++ "/")
      by (rewrite !app_assoc_s; reflexivity).
    rewrite endswith_app, drop_last_app.
    replace (1 <? String.length ((base ++ sub ++ "/") ++ "/")) with true;
      [reflexivity|].
    symmetry. apply Nat.ltb_lt. rewrite !slength_app. cbn. lia.
Qed.

Lemma full_path_one_slash_witness :
  full_path_of "/" "" <> ""
  /\ Py.startswith (full_path_of "/api/foo" "/bar/") "/api/foo" = true.
Proof.
  split.
  - apply (proj1 (proj2 (full_path_one_slash "/" ""))). discriminate.
  - apply (proj1 (proj2 (proj2 (full_path_one_slash "/api/foo" "/bar/")))).
    left. discriminate.
Defined.

(** ** Files without routes *)

Lemma split_head (s : string) (c : ascii) :
  exists (h : string) (tl : list string) (post : string),
    Py.split s c = h :: tl /\ s = h ++ post.
Proof.
  induction s as [|a s (h & tl & post & Hs & Hp)]; cbn [Py.split].
  - now exists "", [], "".
  - destruct (Ascii.eqb a c).
    + now exists "", (Py.split s c), (String a s).
    + rewrite Hs. exists (String a h), tl, post. split; [reflexivity|].
      cbn [append]. now f_equal.
Qed.

(** Every line is a piece of the text. *)
Lemma split_substring (s : string) (c : ascii) (l : string) :
  In l (Py.split s c) -> exists pre post : string, s = pre ++ l ++ post.
Proof.
  induction s as [|a s IH]; cbn [Py.split].
  - intros [<-|[]]. now exists "", "".
  - destruct (Ascii.eqb a c).
    + intros [<-|H]; [now exists "", (String a s)|].
      destruct (IH H) as (pre & post & ->). now exists (String a pre), post.
    + destruct (split_head s c) as (h & tl & post & Hs & Hp).
      rewrite Hs in *. intros [<-|H].
      * exists "", post. cbn [append]. now f_equal.
      * destruct (IH (or_intror H)) as (pre & post' & ->).
        now exists (String a pre), post'.
Qed.

Lemma sforall_app (p : ascii -> bool) (a b : string) :
  Py.sforall p (a ++ b) = Py.sforall p a && Py.sforall p b.
Proof.
  induction a as [|c a IH]; cbn [append Py.sforall]; [reflexivity|].
  now rewrite IH, andb_assoc.
Qed.

Lemma contains_app_l (sub pre s : string) :
  Py.contains sub s = true -> Py.contains sub (pre ++ s) = true.
Proof.
  intros H. induction pre as [|c pre IH]; cbn [append]; [exact H|].
  cbn [Py.contains]. rewrite IH. apply orb_true_r.
Qed.

(** A text without routes on any of its lines gives no record. *)
Lemma parse_no_route_lines (base text : string) :
  (forall l, In l (Py.split text newline) ->
             route_match (Py.strip l) = None) ->
  parse_route_text base text = [].
Proof.
  intros H. apply (map_eq_nil route_key).
  rewrite parse_route_text_keys.
  induction (Py.split text newline) as [|l ls IH]; [reflexivity|].
  cbn [flat_map]. rewrite IH by (intros l' Hl'; apply H; now right).
  unfold line_route. rewrite (H l (or_introl eq_refl)).
  now destruct (is_comment_line (Py.strip l)).
Qed.

(** X3.  A file whose text holds neither a single nor a double quote
    gives no route: a sub-path written as a template literal or passed
    as a variable is passed over without a word. *)
Theorem no_quote_no_route :
  forall base text : string,
    Py.sforall not_quote text = true -> parse_route_text base text = [].
Proof.
  intros base text H. apply parse_no_route_lines. intros l Hl.
  destruct (route_match (Py.strip l)) as [[g1 g2]|] eqn:Hm; [|reflexivity].
  destruct (route_match_Some _ _ _ Hm) as (_ & _ & _ & Hq).
  destruct (split_substring _ _ _ Hl) as (pre & post & ->).
  rewrite !sforall_app, !andb_true_iff in H. destruct H as [_ [H _]].
  apply sforall_strip in H. congruence.
Qed.

Lemma no_quote_no_route_witness :
  parse_route_text "/api/x"
    (text_of_lines ["// list"; "router.get(`/a`, h)"; "router.post(path, h)"])
  = [].
Proof. apply no_quote_no_route. reflexivity. Defined.

(** X4.  A file in which the text [router.] does not occur gives no
    route, whatever else it declares. *)
Theorem no_router_no_route :
  forall base text : string,
    Py.contains "router." text = false -> parse_route_text base text = [].
Proof.
  intros base text H. apply parse_no_route_lines. intros l Hl.
  destruct (route_match (Py.strip l)) as [[g1 g2]|] eqn:Hm; [|reflexivity].
  destruct (route_match_Some _ _ _ Hm) as (_ & _ & Hr & _).
  destruct (split_substring _ _ _ Hl) as (pre & post & ->).
  destruct (Py.contains "router." l) eqn:E.
  - rewrite (contains_app_l _ pre _ (contains_app_r _ _ post E)) in H.
    discriminate.
  - apply contains_strip in E. congruence.
Qed.

Lemma no_router_no_route_witness :
  parse_route_text "/api/x"
    (text_of_lines ["/** @desc List */"; "app.get('/a', h)";
                    "Router.post('/b', h)"])
  = [].
Proof. apply no_router_no_route. reflexivity. Defined.

(** ** Lines that do not matter *)

Lemma scan_line_strip (base : string) (st : scan_state) (line : string) :
  scan_line base st (Py.strip line) = scan_line base st line.
Proof.
  destruct st as [routes buf]. unfold scan_line. now rewrite !strip_idem.
Qed.

(** X5.  Indentation and trailing blanks play no part: scanning the
    trimmed lines gives the same routes and the same buffer as scanning
    the lines themselves. *)
Theorem scan_ignores_indentation :
  forall (base : string) (lines : list string),
    scan_after base (map Py.strip lines) = scan_after base lines.
Proof.
  intros base lines. unfold scan_after. generalize (@nil route, @nil string).
  induction lines as [|l lines IH]; intros st; cbn [map fold_left];
    [reflexivity|].
  now rewrite scan_line_strip, IH.
Qed.

Lemma scan_line_transparent (base : string) (st : scan_state) (line : string) :
  is_transparent line = true -> scan_line base st line = st.
Proof.
  destruct st as [routes buf]. unfold is_transparent, scan_line.
  rewrite !andb_true_iff, negb_true_iff, strip_idem. intros [[Hc Hm] Hb].
  rewrite Hc. destruct (route_match (Py.strip line)); [discriminate|].
  destruct (String.eqb (Py.strip line) ""); [reflexivity|].
  cbn [orb] in Hb. now rewrite Hb.
Qed.

Lemma scan_transparent (base : string) (gap : list string) (st : scan_state) :
  Forall (fun l => is_transparent l = true) gap ->
  fold_left (scan_line base) gap st = st.
Proof.
  induction 1 as [|l gap Hl _ IH]; cbn [fold_left]; [reflexivity|].
  now rewrite scan_line_transparent.
Qed.

Lemma scan_after_gap (base : string) (before gap after : list string) :
  Forall (fun l => is_transparent l = true) gap ->
  scan_after base (before ++ gap ++ after) = scan_after base (before ++ after).
Proof.
  intros H. unfold scan_after.
  rewrite !fold_left_app. now rewrite (scan_transparent base gap _ H).
Qed.

(** X6.  Blank lines, and lines that start with [router.] without
    holding a route, leave routes and buffer as they are, wherever they
    stand: a file scans the same with such lines taken out, so they do
    not part a comment from the route after them. *)
Theorem transparent_lines_change_nothing :
  forall (base : string) (before gap after : list string),
    Forall (fun l => is_transparent l = true) gap ->
    scan_after base (before ++ gap ++ after) = scan_after base (before ++ after).
Proof.
  intros base before gap after H. unfold scan_after.
  rewrite (fold_left_app _ before (gap ++ after)), (fold_left_app _ gap after).
  rewrite (scan_transparent base gap _ H).
  now rewrite <- fold_left_app.
Qed.

Lemma transparent_lines_change_nothing_witness :
  scan_after "/api/x"
    (["// @desc List"] ++ [""; "router.use(auth);"; "   "]
     ++ ["router.get('/a', h)"])
  = ([mkRoute "List" "GET" "/api/x/a" "List"], []).
Proof.
  rewrite (transparent_lines_change_nothing "/api/x" ["// @desc List"]
             [""; "router.use(auth);"; "   "] ["router.get('/a', h)"]).
  - reflexivity.
  - repeat constructor.
Defined.

(** ** Routes that find the buffer empty *)

Lemma build_route_nil (base g1 g2 : string) :
  build_route base [] g1 g2 = default_route base g1 g2.
Proof. reflexivity. Qed.

Lemma scan_after_snoc (base : string) (before : list string) (line : string) :
  scan_after base (before ++ [line])
  = scan_line base (scan_after base before) line.
Proof. unfold scan_after. now rewrite fold_left_app. Qed.

(** Once the buffer is empty, transparent lines keep it so, and the next
    route gets the default name and description. *)
Lemma route_after_clear (base : string) (before gap : list string)
  (line g1 g2 : string) :
  snd (scan_after base before) = [] ->
  Forall (fun l => is_transparent l = true) gap ->
  is_comment_line (Py.strip line) = false ->
  route_match (Py.strip line) = Some (g1, g2) ->
  scan_after base (before ++ gap ++ [line])
  = ((fst (scan_after base before) ++ [default_route base g1 g2])%list, []).
Proof.
  intros Hnil Hgap Hc Hm.
  rewrite (scan_after_gap base before gap [line] Hgap), scan_after_snoc.
  destruct (scan_after base before) as [routes buf]. cbn [fst snd] in *.
  subst buf. rewrite (scan_line_route _ _ _ _ _ _ Hc Hm).
  now rewrite build_route_nil.
Qed.

(** X7.  Documentation is used once: of two routes with nothing but
    transparent lines between them, the second takes nothing from the
    comment above the first; its name is [METHOD sub-path] and its
    description [METHOD full_path]. *)
Theorem documentation_is_one_shot :
  forall (base : string) (before : list string) (first : string)
         (gap : list string) (line g1 g2 : string),
    is_route_line first = true ->
    Forall (fun l => is_transparent l = true) gap ->
    is_comment_line (Py.strip line) = false ->
    route_match (Py.strip line) = Some (g1, g2) ->
    scan_after base (before ++ first :: gap ++ [line])
    = ((fst (scan_after base (before ++ [first]))
        ++ [default_route base g1 g2])%list, []).
Proof.
  intros base before first gap line g1 g2 Hfirst Hgap Hc Hm.
  change (before ++ first :: gap ++ [line])%list
    with (before ++ [first] ++ gap ++ [line])%list.
  rewrite app_assoc. apply route_after_clear; try assumption.
  rewrite scan_after_snoc. destruct (scan_after base before) as [routes buf].
  unfold is_route_line in Hfirst. apply andb_true_iff in Hfirst as [H1 H2].
  apply negb_true_iff in H1.
  destruct (route_match (Py.strip first)) as [[x1 x2]|] eqn:E; [|discriminate].
  now rewrite (scan_line_route _ _ _ _ _ _ H1 E).
Qed.

Lemma documentation_is_one_shot_witness :
  scan_after "/api/x"
    (["// @desc List"] ++ "router.get('/a', h)" :: [""] ++ ["router.post('/a', h)"])
  = ([mkRoute "List" "GET" "/api/x/a" "List";
      mkRoute "POST /a" "POST" "/api/x/a" "POST /api/x/a"], []).
Proof.
  rewrite (documentation_is_one_shot "/api/x" ["// @desc List"]
             "router.get('/a', h)" [""] "router.post('/a', h)" "post" "/a");
    try reflexivity.
  repeat constructor.
Defined.

(** X8.  A code line that is neither comment, route, blank nor a
    [router.] line emits nothing and throws the pending comment away: the
    next route, with only transparent lines before it, gets the default
    name and description. *)
Theorem code_line_drops_documentation :
  forall (base : string) (before : list string) (code : string)
         (gap : list string) (line g1 g2 : string),
    is_opaque code = true ->
    Forall (fun l => is_transparent l = true) gap ->
    is_comment_line (Py.strip line) = false ->
    route_match (Py.strip line) = Some (g1, g2) ->
    scan_after base (before ++ code :: gap ++ [line])
    = ((fst (scan_after base before) ++ [default_route base g1 g2])%list, []).
Proof.
  intros base before code gap line g1 g2 Hcode Hgap Hc Hm.
  assert (Hstep : scan_after base (before ++ [code])
                  = (fst (scan_after base before), [])).
  { rewrite scan_after_snoc. destruct (scan_after base before) as [routes buf].
    unfold is_opaque in Hcode. rewrite !andb_true_iff in Hcode.
    destruct Hcode as [[[H1 H2] H3] H4]. apply negb_true_iff in H1, H3.
    unfold scan_line. rewrite H1, strip_idem, H3, H4.
    now destruct (route_match (Py.strip code)). }
  change (before ++ code :: gap ++ [line])%list
    with (before ++ [code] ++ gap ++ [line])%list.
  rewrite app_assoc.
  rewrite (route_after_clear base (before ++ [code])%list gap line g1 g2);
    try assumption; now rewrite Hstep.
Qed.

Lemma code_line_drops_documentation_witness :
  scan_after "/api/x"
    (["// @desc List"] ++ "const router = Router();" :: [""]
     ++ ["router.get('/a', h)"])
  = ([mkRoute "GET /a" "GET" "/api/x/a" "GET /api/x/a"], []).
Proof.
  rewrite (code_line_drops_documentation "/api/x" ["// @desc List"]
             "const router = Router();" [""] "router.get('/a', h)" "get" "/a");
    try reflexivity.
  repeat constructor.
Defined.

(** ** What the buffer holds *)

Lemma scan_buffer_forall (P : string -> Prop) (base : string) :
  (forall l, clean_comment l <> "" -> P (clean_comment l)) ->
  forall before, Forall P (snd (scan_after base before)).
Proof.
  intros HP before. unfold scan_after.
  assert (H : forall st : scan_state,
             Forall P (snd st) ->
             Forall P (snd (fold_left (scan_line base) before st))).
  { induction before as [|l before IH]; intros [routes buf] Hst;
      cbn [fold_left]; [exact Hst|].
    apply IH. cbn [snd] in Hst. unfold scan_line.
    destruct (is_comment_line (Py.strip l)).
    - assert (Hk : Forall P (if Py.startswith (Py.strip l) "/**"
                             then [] else buf))
        by (destruct (Py.startswith _ _); [constructor|exact Hst]).
      destruct (String.eqb_spec (clean_comment (Py.strip l)) "") as [E|E];
        cbn [negb snd]; [exact Hk|].
      apply Forall_app. split; [exact Hk|].
      constructor; [now apply HP|constructor].
    - destruct (route_match (Py.strip l)) as [[g1 g2]|]; [constructor|].
      destruct (String.eqb (Py.strip (Py.strip l)) ""); [exact Hst|].
      destruct (negb (Py.startswith (Py.strip l) "router."));
        [constructor|exact Hst]. }
  apply H. constructor.
Qed.

(** X9.  At every point of a scan, each string in the buffer is
    non-empty, trimmed, and free of stars and of double slashes. *)
Theorem buffer_entries_clean :
  forall (base : string) (before : list string) (b : string),
    In b (snd (scan_after base before)) ->
    b <> "" /\ Py.strip b = b
    /\ Py.contains "*" b = false /\ Py.contains "//" b = false.
Proof.
  intros base before b Hb.
  refine (proj1 (Forall_forall _ _)
            (scan_buffer_forall
               (fun b => b <> "" /\ Py.strip b = b
                         /\ Py.contains "*" b = false
                         /\ Py.contains "//" b = false) base _ before) b Hb).
  intros l Hl. split; [exact Hl|]. unfold clean_comment.
  split; [apply strip_idem|]. split.
  - rewrite contains_char. apply negb_false_iff.
    apply sforall_strip. unfold Py.replace at 1.
    apply sforall_replace_del. apply replace_char_free.
  - apply contains_strip. apply replace_pair_free.
Qed.

Lemma buffer_entries_clean_witness :
  "see http:x.com/ab" <> "" /\ Py.strip "see http:x.com/ab" = "see http:x.com/ab"
  /\ Py.contains "*" "see http:x.com/ab" = false
  /\ Py.contains "//" "see http:x.com/ab" = false.
Proof.
  apply (buffer_entries_clean "/api/x"
           ["/**"; "  * List ** all //"; "// see http://x.com/a*b"]).
  vm_compute. right. left. reflexivity.
Defined.

(** ** The name of a record *)

Lemma describe_fold_name (buf : list string) (d n : string) :
  snd (fold_left describe_step buf (d, n)) = n
  \/ exists c : string,
       In c buf /\ Py.contains "@desc" c = true
       /\ snd (fold_left describe_step buf (d, n))
          = Py.strip (Py.replace c "@desc" "").
Proof.
  revert d n. induction buf as [|c buf IH]; intros d n; cbn [fold_left];
    [now left|].
  unfold describe_step at 2 4.
  destruct (Py.contains "@desc" c) eqn:Hc.
  - destruct (IH (Py.strip (Py.replace c "@desc" ""))
                (Py.strip (Py.replace c "@desc" ""))) as [H|(c' & Hin & Hd & H)].
    + right. exists c. split; [now left|]. now split.
    + right. exists c'. split; [now right|]. now split.
  - assert (Hn : exists d', (if negb (Py.contains "@route" c)
                                && negb (Py.contains "@access" c)
                             then if String.eqb d "" then (c, n) else (d, n)
                             else (d, n)) = (d', n)).
    { destruct (negb _ && negb _); [|now exists d].
      destruct (String.eqb d ""); [now exists c|now exists d]. }
    destruct Hn as [d' ->].
    destruct (IH d' n) as [H|(c' & Hin & Hd & H)]; [now left|].
    right. exists c'. split; [now right|]. now split.
Qed.

(** X10.  The name of a record is [METHOD sub-path] or what a buffered
    line with the [@desc] marker leaves once marker and outer blanks are
    gone; so a name is empty only when some such line has nothing but the
    marker. *)
Theorem name_default_or_desc :
  forall (base : string) (buf : list string) (g1 g2 : string),
    (name (build_route base buf g1 g2) = Py.upper g1 ++ " " ++ g2
     \/ exists c : string,
          In c buf /\ Py.contains "@desc" c = true
          /\ name (build_route base buf g1 g2)
             = Py.strip (Py.replace c "@desc" ""))
    /\ (name (build_route base buf g1 g2) = "" ->
        exists c : string,
          In c buf /\ Py.contains "@desc" c = true
          /\ Py.strip (Py.replace c "@desc" "") = "").
Proof.
  intros base buf g1 g2. rewrite build_route_name.
  destruct (describe_fold_name buf "" (Py.upper g1 ++ " " ++ g2))
    as [H|(c & Hin & Hd & H)].
  - split; [now left|]. rewrite H. destruct (Py.upper g1); discriminate.
  - split; [right; now exists c|].
    intros E. exists c. split; [exact Hin|]. split; [exact Hd|]. congruence.
Qed.

Lemma name_default_or_desc_witness :
  exists c : string,
    In c ["List all"; "@desc"] /\ Py.contains "@desc" c = true
    /\ Py.strip (Py.replace c "@desc" "") = "".
Proof.
  apply (proj2 (name_default_or_desc "/api/x" ["List all"; "@desc"] "get" "/a")).
  reflexivity.
Defined.

(** ** The document as a whole *)

Lemma entry_output_shape (fs : file_system) (e : string * string) :
  entry_output fs e = (entry_lines fs e, entry_folder fs e).
Proof.
  destruct e as [filename base].
  unfold entry_output, process_entry, entry_lines, entry_folder, is_missing,
    parse_route_file.
  cbn [fst snd].
  destruct (fs (Py.path_join ROUTES_DIR filename)) as [content|];
    [|reflexivity].
  now destruct (parse_route_text base content).
Qed.

Lemma process_entries_flat (fs : file_system) (mapping : list (string * string)) :
  process_entries fs mapping
  = (flat_map (entry_lines fs) mapping, flat_map (entry_folder fs) mapping).
Proof.
  induction mapping as [|e mapping IH]; [reflexivity|].
  change (e :: mapping) with ([] ++ e :: mapping)%list.
  rewrite process_entries_split, IH, entry_output_shape. reflexivity.
Qed.

Lemma entry_folder_items (fs : file_system) (e : string * string) :
  flat_map folder_item (entry_folder fs e)
  = map make_request_item (snd (parse_route_file fs (fst e) (snd e))).
Proof.
  unfold entry_folder.
  destruct (snd (parse_route_file fs (fst e) (snd e))) as [|r routes];
    [reflexivity|].
  cbn [flat_map folder_item]. apply app_nil_r.
Qed.

(** X11.  The folders of the document follow the order of the mapping,
    at most one for each entry and none without a request: the entries
    whose file gives at least one route, each with one request item for
    each route, in the order of the routes. *)
Theorem folders_in_mapping_order :
  forall (fs : file_system) (mapping : list (string * string)),
    item (snd (assemble mapping fs)) = flat_map (entry_folder fs) mapping
    /\ List.length (item (snd (assemble mapping fs))) <= List.length mapping
    /\ Forall (fun f => folder_item f <> []) (item (snd (assemble mapping fs))).
Proof.
  intros fs mapping. rewrite assemble_items, process_entries_flat. cbn [snd].
  split; [reflexivity|]. split.
  - induction mapping as [|e mapping IH]; [apply Nat.le_refl|].
    cbn [flat_map]. rewrite List.length_app. cbn [List.length].
    unfold entry_folder at 1.
    destruct (snd (parse_route_file fs (fst e) (snd e))); cbn [List.length]; lia.
  - induction mapping as [|e mapping IH]; [constructor|].
    cbn [flat_map]. apply Forall_app. split; [|exact IH].
    unfold entry_folder.
    destruct (snd (parse_route_file fs (fst e) (snd e))); [constructor|].
    constructor; [discriminate|constructor].
Qed.



(** X13.  End to end: the methods and raw URLs of all requests of the
    document, in order, are those read off the route lines of the files
    that exist, entry by entry and line by line, each URL being
    [{{base_url}}] followed by the path. *)
Theorem requests_follow_route_lines :
  forall (fs : file_system) (mapping : list (string * string)),
    map item_key (flat_map folder_item (item (snd (assemble mapping fs))))
    = flat_map (entry_requests fs) mapping.
Proof.
  intros fs mapping. rewrite assemble_items, process_entries_flat. cbn [snd].
  induction mapping as [|e mapping IH]; [reflexivity|].
  cbn [flat_map]. rewrite flat_map_app_s, map_app, IH. f_equal.
  rewrite entry_folder_items. unfold entry_requests, parse_route_file.
  destruct (fs (Py.path_join ROUTES_DIR (fst e))) as [content|];
    [|reflexivity].
  cbn [snd]. rewrite <- parse_route_text_keys, !map_map. reflexivity.
Qed.

(** ** Splitting *)

Lemma split_free (s : string) (c : ascii) (p : string) :
  In p (Py.split s c) -> free_of c p = true.
Proof.
  unfold free_of. revert p. induction s as [|a s IH]; intros p; cbn [Py.split].
  - intros [<-|[]]. reflexivity.
  - destruct (Ascii.eqb_spec a c) as [->|Hac].
    + intros [<-|H]; [reflexivity|now apply IH].
    + destruct (split_head s c) as (h & tl & post & Hs & _).
      rewrite Hs in *. intros [<-|H].
      * cbn [Py.sforall]. rewrite (IH h (or_introl eq_refl)), andb_true_r.
        apply negb_true_iff, Ascii.eqb_neq. congruence.
      * apply IH. now right.
Qed.

Lemma split_app_free (p t : string) (c : ascii) (h : string)
  (tl : list string) :
  free_of c p = true -> Py.split t c = h :: tl ->
  Py.split (p ++ t) c = (p ++ h) :: tl.
Proof.
  unfold free_of. intros Hp Ht.
  induction p as [|a p IH]; cbn [append]; [exact Ht|].
  cbn [Py.sforall] in Hp. apply andb_true_iff in Hp as [Ha Hp].
  apply negb_true_iff, Ascii.eqb_neq in Ha.
  cbn [Py.split]. destruct (Ascii.eqb_spec a c) as [E|_]; [congruence|].
  now rewrite (IH Hp).
Qed.

(** X14.  In the document every segment of a URL path is non-empty and
    holds no slash. *)
Theorem url_path_segments :
  forall (fs : file_system) (mapping : list (string * string)) (f : folder)
         (it : request_item) (p : string),
    In f (item (snd (assemble mapping fs))) ->
    In it (folder_item f) ->
    In p (url_path (req_url (item_request it))) ->
    is_segment p = true.
Proof.
  intros fs mapping f it p Hf Hit Hp. rewrite assemble_items in Hf.
  destruct (process_entries_folders _ _ _ Hf)
    as (filename & base & r0 & routes & _ & _ & ->).
  cbn [folder_item] in Hit. apply in_map_iff in Hit as (r & <- & _).
  cbn [make_request_item item_request req_url url_path] in Hp.
  apply filter_In in Hp as [Hin Hne]. unfold is_segment.
  now rewrite Hne, (split_free _ _ _ Hin).
Qed.

Lemma url_path_segments_witness :
  is_segment ":id" = true.
Proof.
  apply (url_path_segments (fun _ => Some "router.get('//:id/', h)")
           [("x.ts", "/api/x")]
           (mkFolder "X"
              (map make_request_item
                 (parse_route_text "/api/x" "router.get('//:id/', h)")))
           (make_request_item
              (mkRoute "GET //:id/" "GET" "/api/x//:id" "GET /api/x//:id")));
    vm_compute; auto.
Defined.

Lemma split_join_head (segments : list string) :
  exists tl : list string,
    Py.split (join_segments segments) "/" = EmptyString :: tl.
Proof.
  destruct segments as [|p ps]; [now exists []|].
  cbn [join_segments append Py.split]. rewrite Ascii.eqb_refl.
  now eexists.
Qed.

(** X15.  A path made of non-empty segments without slashes, each after
    a slash, is taken apart into just these segments in the URL of its
    request item. *)
Theorem url_path_of_joined_segments :
  forall (n m d : string) (segments : list string),
    Forall (fun p => is_segment p = true) segments ->
    url_path
      (req_url (item_request (make_request_item
                                (mkRoute n m (join_segments segments) d))))
    = segments.
Proof.
  intros n m d segments H.
  cbn [make_request_item item_request req_url url_path path].
  induction H as [|p ps Hp _ IH]; [reflexivity|].
  unfold is_segment in Hp. apply andb_true_iff in Hp as [Hne Hfree].
  cbn [join_segments append Py.split]. rewrite Ascii.eqb_refl.
  cbn [filter String.eqb negb].
  destruct (split_join_head ps) as [tl Htl].
  rewrite (split_app_free p _ _ _ _ Hfree Htl), app_nil_r_s.
  cbn [filter]. rewrite Hne. f_equal.
  rewrite Htl in IH. exact IH.
Qed.

Lemma url_path_of_joined_segments_witness :
  url_path
    (req_url (item_request (make_request_item
                              (mkRoute "GET /:id" "GET" "/api/x/:id" "d"))))
  = ["api"; "x"; ":id"].
Proof.
  apply (url_path_of_joined_segments "GET /:id" "GET" "d" ["api"; "x"; ":id"]).
  repeat constructor.
Defined.

(** X16.  The lines that are scanned are the content cut at its
    newlines: there is at least one, none holds a newline, and joined by
    newlines they give the content back; and lines without newlines,
    joined, are split into themselves. *)
Theorem split_lines_round_trip :
  (forall content : string,
      Py.split content newline <> []
      /\ Forall (fun l => free_of newline l = true) (Py.split content newline)
      /\ text_of_lines (Py.split content newline) = content)
  /\ (forall lines : list string,
        lines <> [] ->
        Forall (fun l => free_of newline l = true) lines ->
        Py.split (text_of_lines lines) newline = lines).
Proof.
  split.
  - intros content. split; [|split].
    + destruct (split_head content newline) as (h & tl & _ & -> & _).
      discriminate.
    + apply Forall_forall. intros l. apply split_free.
    + induction content as [|a s IH]; [reflexivity|].
      cbn [Py.split]. destruct (split_head s newline) as (h & tl & _ & Hs & _).
      rewrite Hs in *. destruct (Ascii.eqb_spec a newline) as [->|_].
      * cbn [text_of_lines]. cbn [text_of_lines] in IH. now rewrite IH.
      * destruct tl as [|x xs]; cbn [text_of_lines] in *.
        -- now rewrite IH.
        -- cbn [append]. now rewrite IH.
  - intros lines Hne H. induction H as [|l ls Hl _ IH]; [now elim Hne|].
    destruct ls as [|x xs].
    + cbn [text_of_lines]. rewrite <- (app_nil_r_s l) at 1.
      rewrite (split_app_free l "" newline "" [] Hl eq_refl).
      now rewrite app_nil_r_s.
    + change (text_of_lines (l :: x :: xs))
        with (l ++ String newline (text_of_lines (x :: xs))).
      assert (Hs : Py.split (String newline (text_of_lines (x :: xs))) newline
                   = EmptyString :: x :: xs).
      { cbn [Py.split]. rewrite Ascii.eqb_refl. f_equal.
        apply IH. discriminate. }
      rewrite (split_app_free l _ newline _ _ Hl Hs).
      now rewrite app_nil_r_s.
Qed.

Lemma split_lines_round_trip_witness :
  Py.split (text_of_lines ["/** List */"; ""; "router.get('/a', h)"]) newline
  = ["/** List */"; ""; "router.get('/a', h)"].
Proof.
  apply (proj2 split_lines_round_trip); [discriminate|repeat constructor].
Defined.

(** ** A comment block *)

Lemma scan_comment_lines (base : string) (cs : list string)
  (routes : list route) (buf : list string) :
  Forall (fun l => is_comment_line (Py.strip l) = true
                   /\ Py.startswith (Py.strip l) "/**" = false) cs ->
  fold_left (scan_line base) cs (routes, buf)
  = (routes,
     (buf ++ filter (fun b => negb (String.eqb b ""))
               (map (fun l => clean_comment (Py.strip l)) cs))%list).
Proof.
  intros H. revert buf.
  induction H as [|l cs [Hc Ho] _ IH]; intros buf; cbn [fold_left map filter].
  - now rewrite app_nil_r.
  - unfold scan_line at 2. rewrite Hc, Ho.
    destruct (negb (String.eqb (clean_comment (Py.strip l)) ""));
      rewrite IH; [now rewrite <- app_assoc|reflexivity].
Qed.

(** X17.  A comment block starts afresh at its opening line: after a
    line that starts with the block-open marker and the comment lines
    that follow it, the buffer holds the cleaned non-empty texts of just
    these lines, in their order, whatever it held before, and no route is
    added. *)
Theorem comment_block_buffer :
  forall (base : string) (routes : list route) (buf : list string)
         (open : string) (cs : list string),
    Py.startswith (Py.strip open) "/**" = true ->
    Forall (fun l => is_comment_line (Py.strip l) = true
                     /\ Py.startswith (Py.strip l) "/**" = false) cs ->
    fold_left (scan_line base) (open :: cs) (routes, buf)
    = (routes,
       filter (fun b => negb (String.eqb b ""))
         (map (fun l => clean_comment (Py.strip l)) (open :: cs))).
Proof.
  intros base routes buf open cs Ho Hcs. cbn [fold_left map filter].
  unfold scan_line at 2. unfold is_comment_line at 1. rewrite Ho.
  cbn [orb].
  destruct (negb (String.eqb (clean_comment (Py.strip open)) ""));
    now rewrite (scan_comment_lines base cs routes _ Hcs).
Qed.

Lemma comment_block_buffer_witness :
  fold_left (scan_line "/api/x")
    ["/** List users"; " *"; " * @route GET /api/x"; " */"]
    ([], ["stale"])
  = ([], ["List users"; "@route GET /api/x"]).
Proof.
  rewrite (comment_block_buffer "/api/x" [] ["stale"] "/** List users"
             [" *"; " * @route GET /api/x"; " */"]).
  - reflexivity.
  - reflexivity.
  - repeat constructor.
Defined.
